(** * Agentic honeypot: the signal extraction and classification pipeline

    A shallow embedding of
      - [app/llm_client.py]   ([FallbackLLMClient], the rule based classifier),
      - [app/scam_detector.py] ([ScamDetector.detect], [_parse_response]),
      - [app/intelligence_extractor.py] ([IntelligenceExtractor]),
    together with the pieces of the Python runtime these functions lean on
    ([str] methods, [re.findall] for the four patterns of the extractor,
    [json.dumps] / [json.loads], binary64 arithmetic).

    Conventions.
      - A Python [str] is a Rocq [string]; its characters are the 8-bit
        characters of [ascii].  Letters, digits and white space are the
        ASCII ones; a character above 127 is neither.
      - A Python [float] is a primitive binary64 [float]; Python's [int]s
        are [Z].
      - A computation that may raise is a value of [result]; the exception
        carries its class and its message ([str(e)]). *)

From Stdlib Require Import String Ascii List ZArith Floats Uint63 Lia Bool.
From Stdlib Require Import Permutation.
Import ListNotations.

Set Warnings "-inexact-float,-register-all".

Local Open Scope string_scope.
Local Open Scope Z_scope.

(* ===================================================================== *)
(** ** Python strings *)
(* ===================================================================== *)

Module Py.

(** [len(s)] *)
Definition len (s : string) : Z := Z.of_nat (String.length s).

(** [s.startswith(p)] *)
Fixpoint startswith (p s : string) : bool :=
  match p, s with
  | EmptyString, _ => true
  | String _ _, EmptyString => false
  | String a p', String b s' => Ascii.eqb a b && startswith p' s'
  end.

(** [needle in hay] *)
Fixpoint contains (needle hay : string) : bool :=
  startswith needle hay ||
  match hay with
  | EmptyString => false
  | String _ t => contains needle t
  end.

(** The characters of [s] from index [n] on: [s[n:]] for [n >= 0]. *)
Fixpoint drop (n : nat) (s : string) : string :=
  match n, s with
  | O, _ => s
  | S n', EmptyString => EmptyString
  | S n', String _ t => drop n' t
  end.

(** The first [n] characters of [s]: [s[:n]] for [n >= 0]. *)
Fixpoint take (n : nat) (s : string) : string :=
  match n, s with
  | O, _ => EmptyString
  | S n', EmptyString => EmptyString
  | S n', String c t => String c (take n' t)
  end.

(** [s[start:stop]] for [start >= 0]; a negative [stop] does not occur in
    the code modelled here, where [stop] is a length or a position found
    by [find].  An empty range gives the empty string. *)
Definition slice (s : string) (start stop : Z) : string :=
  take (Z.to_nat (stop - start)) (drop (Z.to_nat start) s).

(** Search of [needle] in [hay], whose first character has index [i]. *)
Fixpoint find_aux (needle hay : string) (i : Z) : Z :=
  if startswith needle hay then i
  else match hay with
       | EmptyString => -1
       | String _ t => find_aux needle t (i + 1)
       end.

(** [s.find(needle, start)] for [start >= 0]: the lowest index at or after
    [start] where [needle] occurs, [-1] when there is none. *)
Definition find (s needle : string) (start : Z) : Z :=
  if len s <? start then -1
  else find_aux needle (drop (Z.to_nat start) s) start.


(** ASCII classes. *)
Definition code (c : ascii) : nat := nat_of_ascii c.

Definition is_upper (c : ascii) : bool :=
  (65 <=? code c)%nat && (code c <=? 90)%nat.
Definition is_lower (c : ascii) : bool :=
  (97 <=? code c)%nat && (code c <=? 122)%nat.
Definition is_alpha (c : ascii) : bool := is_upper c || is_lower c.
Definition is_digit (c : ascii) : bool :=
  (48 <=? code c)%nat && (code c <=? 57)%nat.
Definition is_alnum (c : ascii) : bool := is_alpha c || is_digit c.

(** White space as [str.strip()] and the pattern [\s] see it:
    tab, line feed, vertical tab, form feed, carriage return, the four
    separators 0x1c..0x1f and the blank. *)
Definition is_space (c : ascii) : bool :=
  ((9 <=? code c)%nat && (code c <=? 13)%nat) ||
  ((28 <=? code c)%nat && (code c <=? 32)%nat).

Definition lower_char (c : ascii) : ascii :=
  if is_upper c then ascii_of_nat (code c + 32) else c.
Definition upper_char (c : ascii) : ascii :=
  if is_lower c then ascii_of_nat (code c - 32) else c.

(** [s.lower()], [s.upper()] *)
Fixpoint lower (s : string) : string :=
  match s with
  | EmptyString => EmptyString
  | String c t => String (lower_char c) (lower t)
  end.
Fixpoint upper (s : string) : string :=
  match s with
  | EmptyString => EmptyString
  | String c t => String (upper_char c) (upper t)
  end.

(** [s.lstrip(chars)], [s.rstrip(chars)], [s.strip(chars)] with the set of
    characters given as a predicate. *)
Fixpoint lstrip_by (p : ascii -> bool) (s : string) : string :=
  match s with
  | EmptyString => EmptyString
  | String c t => if p c then lstrip_by p t else s
  end.
Fixpoint rstrip_by (p : ascii -> bool) (s : string) : string :=
  match s with
  | EmptyString => EmptyString
  | String c t =>
      match rstrip_by p t with
      | EmptyString => if p c then EmptyString else String c EmptyString
      | t' => String c t'
      end
  end.
Definition strip_by (p : ascii -> bool) (s : string) : string :=
  rstrip_by p (lstrip_by p s).

(** [s.strip()] *)
Definition strip (s : string) : string := strip_by is_space s.

(** Membership of a character in a string used as a set of characters:
    [c in chars]. *)
Fixpoint char_in (c : ascii) (chars : string) : bool :=
  match chars with
  | EmptyString => false
  | String d t => Ascii.eqb c d || char_in c t
  end.

(** [s.split(sep)] for a separator of one character. *)
Fixpoint split (sep : ascii) (s : string) : list string :=
  match s with
  | EmptyString => [EmptyString]
  | String c t =>
      if Ascii.eqb c sep then EmptyString :: split sep t
      else match split sep t with
           | [] => [String c EmptyString]
           | w :: ws => String c w :: ws
           end
  end.

(** [sep.join(parts)] *)
Fixpoint join (sep : string) (parts : list string) : string :=
  match parts with
  | [] => EmptyString
  | [p] => p
  | p :: ps => p ++ sep ++ join sep ps
  end.

(** [xs[-1]] of a list that is not empty (the value of [str.split]). *)
Definition last_part (parts : list string) : string :=
  List.last parts EmptyString.

(** [any(k in s for k in keys)] *)
Definition any_in (keys : list string) (s : string) : bool :=
  existsb (fun k => contains k s) keys.

(** [sum(1 for k in keys if k in s)] *)
Definition count_in (keys : list string) (s : string) : Z :=
  Z.of_nat (List.length (filter (fun k => contains k s) keys)).

(** [x in xs] for a list or a set of strings. *)
Definition mem (x : string) (xs : list string) : bool :=
  existsb (String.eqb x) xs.

(** [str(n)] of an integer: its decimal digits, most significant first. *)
Definition digit_char (d : Z) : ascii := ascii_of_nat (48 + Z.to_nat d).

Fixpoint digits_aux (fuel : nat) (n : Z) (acc : string) : string :=
  match fuel with
  | O => acc
  | S fuel' =>
      let acc' := String (digit_char (n mod 10)) acc in
      if n / 10 =? 0 then acc' else digits_aux fuel' (n / 10) acc'
  end.

Definition str_of_Z (z : Z) : string :=
  let digits n := digits_aux (S (Z.to_nat (Z.log2 n))) n EmptyString in
  if z <? 0 then String "-" (digits (- z)) else digits z.

End Py.

(** The substring relation the claims speak of. *)
Definition Substring (s t : string) : Prop :=
  exists pre post, t = pre ++ s ++ post.

(* ===================================================================== *)
(** ** Python floats *)
(* ===================================================================== *)

Module PyFloat.

Local Open Scope float_scope.

(** [float(n)] of a small non-negative [int]. *)
Definition of_int (n : Z) : float := PrimFloat.of_uint63 (Uint63.of_Z n).

(** [min(a, b)]: the first of the least arguments. *)
Definition min (a b : float) : float := if PrimFloat.ltb b a then b else a.

(** [a > b] *)
Definition gt (a b : float) : bool := PrimFloat.ltb b a.

(** [a <= b] *)
Definition le (a b : float) : bool := PrimFloat.leb a b.

End PyFloat.

(* ===================================================================== *)
(** ** Exceptions *)
(* ===================================================================== *)

(** The classes of [Exception] that the modelled code can meet. *)
Inductive exn_class : Set :=
  | JSONDecodeError
  | AttributeError
  | TypeError
  | ValueError
  | OverflowError
  | ValidationError
  | RuntimeError
  | OtherError (name : string).

(** An exception instance: its class and [str(e)]. *)
Record exn : Set := Exn { exn_cls : exn_class; exn_msg : string }.

Inductive result (A : Type) : Type :=
  | Ok (a : A)
  | Raise (e : exn).
Arguments Ok {A} a.
Arguments Raise {A} e.

Definition bind {A B : Type} (r : result A) (k : A -> result B) : result B :=
  match r with
  | Ok a => k a
  | Raise e => Raise e
  end.

Notation "x <- r ;; k" := (bind r (fun x => k))
  (at level 61, r at next level, right associativity).

(** [isinstance(e, json.JSONDecodeError)] *)
Definition is_JSONDecodeError (e : exn) : bool :=
  match exn_cls e with
  | JSONDecodeError => true
  | _ => false
  end.

(* ===================================================================== *)
(** ** The [json] module *)
(* ===================================================================== *)

Module Json.

(** The Python values [json.loads] produces and [json.dumps] accepts.
    A [dict] keeps its items in insertion order. *)
Inductive json : Set :=
  | JNull
  | JBool (b : bool)
  | JInt (n : Z)
  | JFloat (f : float)
  | JStr (s : string)
  | JArr (items : list json)
  | JObj (members : list (string * json)).

(** [d.get(key)]: the value of the last item stored under [key]. *)
Fixpoint get (key : string) (d : list (string * json)) : option json :=
  match d with
  | [] => None
  | (k, v) :: d' =>
      match get key d' with
      | Some v' => Some v'
      | None => if String.eqb k key then Some v else None
      end
  end.

(** *** Decimal digits *)

Definition hex_char (d : nat) : ascii :=
  if (d <? 10)%nat then ascii_of_nat (48 + d) else ascii_of_nat (87 + d).

(** The value of a string of decimal digits. *)
Fixpoint digits_value (s : string) (acc : Z) : Z :=
  match s with
  | EmptyString => acc
  | String c t => digits_value t (10 * acc + Z.of_nat (Py.code c - 48))
  end.

(** *** [float(text)] of a decimal literal

    [float_of_decimal neg c p] is the binary64 nearest to
    [(-1)^neg * c * 10^p], ties to even. *)
Definition float_of_decimal (neg : bool) (c p : Z) : float :=
  let signed (f : float) := if neg then PrimFloat.opp f else f in
  if c <=? 0 then signed PrimFloat.zero
  else
    let N := if 0 <=? p then c * 10 ^ p else c in
    let D := if 0 <=? p then 1 else 10 ^ (- p) in
    let l0 := Z.log2 N - Z.log2 D in
    let below := if 0 <=? l0 then N <? D * 2 ^ l0 else N * 2 ^ (- l0) <? D in
    let l := if below then l0 - 1 else l0 in
    let e := Z.max (l - 52) (-1074) in
    let N' := if 0 <=? e then N else N * 2 ^ (- e) in
    let D' := if 0 <=? e then D * 2 ^ e else D in
    let q := N' / D' in
    let r := N' mod D' in
    let up := (D' <? 2 * r) || ((D' =? 2 * r) && Z.odd q) in
    let q' := if up then q + 1 else q in
    if 1100 <? e then signed PrimFloat.infinity
    else signed (Z.ldexp (PyFloat.of_int q') e).

(** *** [repr(x)] of a float: the shortest decimal that reads back as [x] *)

(** [x = num / den] for a finite positive [x]. *)
Definition ratio_of (m : positive) (e : Z) : Z * Z :=
  if 0 <=? e then (Z.pos m * 2 ^ e, 1) else (Z.pos m, 2 ^ (- e)).

(** The decimal exponent [k] with [10^(k-1) <= num/den < 10^k]. *)
Fixpoint decpt_up (fuel : nat) (num den k : Z) : Z :=
  match fuel with
  | O => k
  | S fuel' => if num <? den * 10 ^ k then k else decpt_up fuel' num den (k + 1)
  end.
Fixpoint decpt_down (fuel : nat) (num den j : Z) : Z :=
  match fuel with
  | O => - j
  | S fuel' =>
      if num * 10 ^ (j + 1) <? den then decpt_down fuel' num den (j + 1) else - j
  end.
Definition decpt (num den : Z) : Z :=
  if den <=? num then decpt_up 400 num den 1 else decpt_down 400 num den 0.

(** The [n]-digit decimal [c * 10^(k-n)] nearest to [x] that reads back as
    [x], when one of the two neighbours of [x] does. *)
Definition shortest_at (x : float) (num den k : Z) (n : Z) : option Z :=
  let N := if 0 <=? n - k then num * 10 ^ (n - k) else num in
  let D := if 0 <=? n - k then den else den * 10 ^ (k - n) in
  let lo := N / D in
  let r := N mod D in
  let back c := PrimFloat.eqb (float_of_decimal false c (k - n)) x in
  if r =? 0 then Some lo
  else
    let hi := lo + 1 in
    match back lo, back hi with
    | true, true =>
        if 2 * r <? D then Some lo
        else if D <? 2 * r then Some hi
        else if Z.even lo then Some lo else Some hi
    | true, false => Some lo
    | false, true => Some hi
    | false, false => None
    end.

Fixpoint shortest (fuel : nat) (x : float) (num den k n : Z) : Z * Z :=
  match fuel with
  | O => (num * 10 ^ (n - k) / den, n)
  | S fuel' =>
      match shortest_at x num den k n with
      | Some c => (c, n)
      | None => shortest fuel' x num den k (n + 1)
      end
  end.

(** Trailing zeros of the digits are dropped. *)
Fixpoint strip_zeros (fuel : nat) (c : Z) : Z :=
  match fuel with
  | O => c
  | S fuel' => if (c mod 10 =? 0) && (0 <? c) then strip_zeros fuel' (c / 10) else c
  end.

Fixpoint zeros (n : nat) : string :=
  match n with
  | O => EmptyString
  | S n' => String "0" (zeros n')
  end.

(** The digits [ds] with the decimal point after the first [dp] of them,
    in the format of [repr]: positional for [-4 < dp <= 16], with an
    exponent otherwise. *)
Definition format_short (ds : string) (dp : Z) : string :=
  let nd := Py.len ds in
  if (-4 <? dp) && (dp <=? 16) then
    if dp <=? 0 then "0." ++ zeros (Z.to_nat (- dp)) ++ ds
    else if dp <? nd then
      Py.take (Z.to_nat dp) ds ++ "." ++ Py.drop (Z.to_nat dp) ds
    else ds ++ zeros (Z.to_nat (dp - nd)) ++ ".0"
  else
    let ex := dp - 1 in
    let mant :=
      if nd <=? 1 then ds else Py.take 1 ds ++ "." ++ Py.drop 1 ds in
    let exs := Py.str_of_Z (Z.abs ex) in
    let exs2 := if Z.abs ex <? 10 then String "0" exs else exs in
    mant ++ "e" ++ (if ex <? 0 then "-" else "+") ++ exs2.

(** [float.__repr__(x)], with the spellings [json.dumps] gives to the
    values that are not numbers. *)
Definition float_repr (x : float) : string :=
  match Prim2SF x with
  | S754_nan => "NaN"
  | S754_infinity false => "Infinity"
  | S754_infinity true => "-Infinity"
  | S754_zero false => "0.0"
  | S754_zero true => "-0.0"
  | S754_finite s m e =>
      let '(num, den) := ratio_of m e in
      let k := decpt num den in
      let '(c, n) := shortest 17 (PrimFloat.abs x) num den k 1 in
      let c' := strip_zeros 20 c in
      let ds := Py.str_of_Z c' in
      (* [c] has [n] digits, or is [10^n] after rounding up *)
      let dp := if c =? 10 ^ n then k + 1 else k in
      (if s then "-" else "") ++ format_short ds dp
  end.

(** *** [json.dumps] *)

Definition dquote : ascii := ascii_of_nat 34.
Definition backslash : ascii := ascii_of_nat 92.

(** The escape of one character, with [ensure_ascii] on. *)
Definition escape_char (c : ascii) : string :=
  let n := Py.code c in
  if (n =? 34)%nat then String backslash (String dquote EmptyString)
  else if (n =? 92)%nat then String backslash (String backslash EmptyString)
  else if (n =? 10)%nat then String backslash "n"
  else if (n =? 13)%nat then String backslash "r"
  else if (n =? 9)%nat then String backslash "t"
  else if (n =? 8)%nat then String backslash "b"
  else if (n =? 12)%nat then String backslash "f"
  else if (32 <=? n)%nat && (n <=? 126)%nat then String c EmptyString
  else String backslash
         (String "u" (String "0" (String "0"
           (String (hex_char (n / 16)) (String (hex_char (n mod 16)) EmptyString))))).

Fixpoint escape (s : string) : string :=
  match s with
  | EmptyString => EmptyString
  | String c t => escape_char c ++ escape t
  end.

Definition quote (s : string) : string :=
  String dquote (escape s ++ String dquote EmptyString).

(** The items of a list or of a dictionary, with [", "] between them. *)
Definition comma_join {A : Type} (f : A -> string) : list A -> string :=
  fix go (l : list A) : string :=
    match l with
    | [] => EmptyString
    | x :: r =>
        f x ++ match r with
               | [] => EmptyString
               | _ :: _ => ", " ++ go r
               end
    end.

(** [json.dumps(j)] with the default separators. *)
Fixpoint dumps (j : json) : string :=
  match j with
  | JNull => "null"
  | JBool true => "true"
  | JBool false => "false"
  | JInt n => Py.str_of_Z n
  | JFloat f => float_repr f
  | JStr s => quote s
  | JArr items => "[" ++ comma_join dumps items ++ "]"
  | JObj members =>
      "{" ++ comma_join (fun kv => let '(k, v) := kv in quote k ++ ": " ++ dumps v) members
      ++ "}"
  end.

(** One item of a dictionary, as [dumps] writes it. *)
Definition dumps_member (kv : string * json) : string :=
  let '(k, v) := kv in quote k ++ ": " ++ dumps v.

(** *** [json.loads] *)

(** The white space of JSON: blank, tab, line feed, carriage return. *)
Definition is_ws (c : ascii) : bool :=
  let n := Py.code c in
  (n =? 32)%nat || (n =? 9)%nat || (n =? 10)%nat || (n =? 13)%nat.

Definition skip_ws (s : string) : string := Py.lstrip_by is_ws s.

(** The longest prefix of [s] made of characters of [p], and the rest. *)
Fixpoint span (p : ascii -> bool) (s : string) : string * string :=
  match s with
  | EmptyString => (EmptyString, EmptyString)
  | String c t =>
      if p c then let '(a, b) := span p t in (String c a, b)
      else (EmptyString, s)
  end.

Definition hex_value (c : ascii) : option nat :=
  let n := Py.code c in
  if Py.is_digit c then Some (n - 48)%nat
  else if (97 <=? n)%nat && (n <=? 102)%nat then Some (n - 87)%nat
  else if (65 <=? n)%nat && (n <=? 70)%nat then Some (n - 55)%nat
  else None.

(** The character of a [\uXXXX] escape.  A code point above 255 has no
    counterpart among the 8-bit characters of this development and is
    read as a question mark. *)
Definition hex4 (a b c d : ascii) : option ascii :=
  match hex_value a, hex_value b, hex_value c, hex_value d with
  | Some x, Some y, Some z, Some w =>
      let n := (((x * 16 + y) * 16 + z) * 16 + w)%nat in
      Some (if (n <? 256)%nat then ascii_of_nat n else "?"%char)
  | _, _, _, _ => None
  end.

Definition unescape (e : ascii) : option ascii :=
  let n := Py.code e in
  if (n =? 34)%nat then Some dquote
  else if (n =? 92)%nat then Some backslash
  else if (n =? 47)%nat then Some "/"%char
  else if (n =? 98)%nat then Some (ascii_of_nat 8)
  else if (n =? 102)%nat then Some (ascii_of_nat 12)
  else if (n =? 110)%nat then Some (ascii_of_nat 10)
  else if (n =? 114)%nat then Some (ascii_of_nat 13)
  else if (n =? 116)%nat then Some (ascii_of_nat 9)
  else None.

Definition cons_fst (c : ascii) (r : option (string * string))
  : option (string * string) :=
  match r with
  | Some (a, b) => Some (String c a, b)
  | None => None
  end.

(** The body of a string literal, after its opening quote (strict mode:
    no raw control character), and what follows the closing quote. *)
Fixpoint scan_string (s : string) : option (string * string) :=
  match s with
  | EmptyString => None
  | String c t =>
      if Ascii.eqb c dquote then Some (EmptyString, t)
      else if Ascii.eqb c backslash then
        match t with
        | EmptyString => None
        | String e t' =>
            if Ascii.eqb e "u" then
              match t' with
              | String h1 (String h2 (String h3 (String h4 t''))) =>
                  match hex4 h1 h2 h3 h4 with
                  | Some ch => cons_fst ch (scan_string t'')
                  | None => None
                  end
              | _ => None
              end
            else
              match unescape e with
              | Some ch => cons_fst ch (scan_string t')
              | None => None
              end
        end
      else if (Py.code c <? 32)%nat then None
      else cons_fst c (scan_string t)
  end.

(** A number: an optional minus sign, then a zero or a run of digits that
    does not start with zero, then optionally a point with digits, then
    optionally an exponent.  Without fraction and exponent it is an
    [int], otherwise the nearest [float]. *)
Definition scan_number (s : string) : option (json * string) :=
  let '(neg, s1) :=
    match s with
    | String "-" t => (true, t)
    | _ => (false, s)
    end in
  let int_part :=
    match s1 with
    | String c t =>
        if Ascii.eqb c "0" then Some ("0", t)
        else if Py.is_digit c then Some (span Py.is_digit s1)
        else None
    | EmptyString => None
    end in
  match int_part with
  | None => None
  | Some (ip, r0) =>
      let '(frac, r1) :=
        match r0 with
        | String "." r =>
            let '(fs, r') := span Py.is_digit r in
            match fs with
            | EmptyString => (None, r0)
            | _ => (Some fs, r')
            end
        | _ => (None, r0)
        end in
      let '(ex, r2) :=
        match r1 with
        | String e r =>
            if Ascii.eqb e "e" || Ascii.eqb e "E" then
              let '(eneg, rs) :=
                match r with
                | String "-" r' => (true, r')
                | String "+" r' => (false, r')
                | _ => (false, r)
                end in
              let '(es, r') := span Py.is_digit rs in
              match es with
              | EmptyString => (None, r1)
              | _ => (Some (if eneg then - digits_value es 0 else digits_value es 0), r')
              end
            else (None, r1)
        | EmptyString => (None, r1)
        end in
      match frac, ex with
      | None, None =>
          Some (JInt (if neg then - digits_value ip 0 else digits_value ip 0), r2)
      | _, _ =>
          let fs := match frac with Some f => f | None => EmptyString end in
          let e := match ex with Some e => e | None => 0 end in
          Some (JFloat (float_of_decimal neg (digits_value (ip ++ fs) 0)
                          (e - Py.len fs)), r2)
      end
  end.

(** A value at the head of [s], and the text after it. *)
Fixpoint scan_once (fuel : nat) (s : string) : option (json * string) :=
  match fuel with
  | O => None
  | S f =>
      match s with
      | EmptyString => None
      | String c t =>
          if Ascii.eqb c dquote then
            match scan_string t with
            | Some (str, r) => Some (JStr str, r)
            | None => None
            end
          else if Ascii.eqb c "{" then
            match skip_ws t with
            | String "}" r => Some (JObj [], r)
            | t1 => scan_members f t1 []
            end
          else if Ascii.eqb c "[" then
            match skip_ws t with
            | String "]" r => Some (JArr [], r)
            | t1 => scan_items f t1 []
            end
          else if Py.startswith "null" s then Some (JNull, Py.drop 4 s)
          else if Py.startswith "true" s then Some (JBool true, Py.drop 4 s)
          else if Py.startswith "false" s then Some (JBool false, Py.drop 5 s)
          else
            match scan_number s with
            | Some r => Some r
            | None =>
                if Py.startswith "NaN" s then Some (JFloat PrimFloat.nan, Py.drop 3 s)
                else if Py.startswith "Infinity" s then
                  Some (JFloat PrimFloat.infinity, Py.drop 8 s)
                else if Py.startswith "-Infinity" s then
                  Some (JFloat PrimFloat.neg_infinity, Py.drop 9 s)
                else None
            end
      end
  end
with scan_items (fuel : nat) (s : string) (acc : list json)
  : option (json * string) :=
  match fuel with
  | O => None
  | S f =>
      match scan_once f s with
      | Some (v, r) =>
          match skip_ws r with
          | String "," r' => scan_items f (skip_ws r') (v :: acc)
          | String "]" r' => Some (JArr (rev (v :: acc)), r')
          | _ => None
          end
      | None => None
      end
  end
with scan_members (fuel : nat) (s : string) (acc : list (string * json))
  : option (json * string) :=
  match fuel with
  | O => None
  | S f =>
      match s with
      | String c t =>
          if Ascii.eqb c dquote then
            match scan_string t with
            | Some (k, r) =>
                match skip_ws r with
                | String ":" r1 =>
                    match scan_once f (skip_ws r1) with
                    | Some (v, r2) =>
                        match skip_ws r2 with
                        | String "," r3 =>
                            scan_members f (skip_ws r3) ((k, v) :: acc)
                        | String "}" r3 =>
                            Some (JObj (rev ((k, v) :: acc)), r3)
                        | _ => None
                        end
                    | None => None
                    end
                | _ => None
                end
            | None => None
            end
          else None
      | EmptyString => None
      end
  end.

(** [json.loads(s)]: one value, white space around it, nothing else.
    Every call of the scanner on the way down consumes a character at
    least every second step, so twice the length of [s] is fuel enough. *)
Definition loads (s : string) : result json :=
  match scan_once (2 * String.length s + 2) (skip_ws s) with
  | Some (v, r) =>
      match skip_ws r with
      | EmptyString => Ok v
      | _ => Raise (Exn JSONDecodeError "Extra data")
      end
  | None => Raise (Exn JSONDecodeError "Expecting value")
  end.

(** *** Values that are read back *)

(** A character that [dumps] writes as it is. *)
Definition plain_char (c : ascii) : bool :=
  let n := Py.code c in
  (32 <=? n)%nat && (n <=? 126)%nat && negb (n =? 34)%nat && negb (n =? 92)%nat.

Fixpoint plain (s : string) : bool :=
  match s with
  | EmptyString => true
  | String c t => plain_char c && plain t
  end.

(** The characters that can follow a value inside a dictionary. *)
Definition delimiter (d : ascii) : Prop := d = ","%char \/ d = "}"%char.

(** A value that the scanner reads back from what [dumps] writes, when a
    delimiter follows. *)
Definition scannable (v : json) : Prop :=
  (exists c t, dumps v = String c t /\ is_ws c = false) /\
  forall f d rest, delimiter d ->
    scan_once (S f) (dumps v ++ String d rest) = Some (v, String d rest).

End Json.

(* ===================================================================== *)
(** ** [app/llm_client.py]: the rule based classifier *)
(* ===================================================================== *)

Module FallbackLLMClient.

Import Json.

Definition SCAM_KEYWORDS : list string :=
  [ "prize"; "winner"; "lottery"; "won"; "congratulations"; "claim";
    "urgent"; "immediately"; "verify"; "kyc"; "suspend"; "blocked";
    "account"; "update"; "otp"; "password"; "pin"; "cvv";
    "bank"; "transfer"; "payment"; "upi"; "send money";
    "reward"; "bonus"; "offer"; "free"; "gift";
    "click here"; "link"; "verify now"; "act now";
    "limited time"; "expire"; "deadline";
    "government"; "rbi"; "income tax"; "refund";
    "loan"; "credit"; "approved"; "eligible";
    "job"; "work from home"; "earn money"; "investment" ].

Definition ENGAGEMENT_RESPONSES : list string :=
  [ "Ji ji, main samajh raha hoon. Kripya thoda aur batayein.";
    "Acha ji? Ye toh bahut acchi baat hai! Mujhe kya karna hoga?";
    "Main thoda confused hoon, aap zaroor genuine honge. Batayein kaise aage badhein?";
    "Shukriya ji aapka. Mujhe trust hai aap par. Details share karein please.";
    "Haan ji bilkul. Main ready hoon. Aap batayein kya karna hai.";
    "Ye account number ya UPI ID bata dijiye jahan payment karni hai.";
    "Main abhi kar deta hoon. Bas confirmation ke liye ek baar repeat kar dijiye.";
    "Ji haan, main senior citizen hoon. Technology mein thoda weak hoon. Help kar dijiye." ].

Definition is_available : bool := true.

(** The loop over [end_markers]: the least position of a marker found at
    or after [start], below the running [stop]. *)
Fixpoint first_marker (text : string) (markers : list string) (start stop : Z) : Z :=
  match markers with
  | [] => stop
  | marker :: rest =>
      let pos := Py.find text marker start in
      first_marker text rest start
        (if negb (pos =? -1) && (pos <? stop) then pos else stop)
  end.

(** The text after [label], up to the first of [end_markers]; empty when
    [label] does not occur. *)
Definition section_after (text label : string) (end_markers : list string) : string :=
  if Py.contains label text then
    let start := Py.find text label 0 + Py.len label in
    let stop := first_marker text end_markers start (Py.len text) in
    Py.strip (Py.slice text start stop)
  else EmptyString.

Definition message_text (text : string) : string :=
  section_after text "MESSAGE:" ["SENDER:"; "CHANNEL:"; "TIMESTAMP:"; "CONVERSATION"].

Definition conv_text (text : string) : string :=
  section_after text "CONVERSATION HISTORY:" ["Respond with"; "Remember:"; "{"; "JSON"].

(** The analysis window. *)
Definition full_context (text : string) : string :=
  Py.lower (message_text text ++ " " ++ conv_text text).

Definition high_confidence_keywords : list string :=
  [ "lottery"; "won prize"; "claim prize"; "congratulations you won";
    "send money"; "pay fee"; "processing fee"; "advance payment";
    "kyc blocked"; "account suspended"; "account suspension"; "verify immediately";
    "click here to claim"; "limited time offer"; "will be blocked";
    "share your upi"; "share upi"; "avoid suspension"; "blocked today";
    "verify now"; "account will be"; "bank account blocked" ].

Definition high_matches (ctx : string) : Z := Py.count_in high_confidence_keywords ctx.
Definition regular_matches (ctx : string) : Z := Py.count_in SCAM_KEYWORDS ctx.

Definition confidence (high regular : Z) : float :=
  if 1 <=? high then PyFloat.min 0.95 (0.5 + PyFloat.of_int high * 0.2)%float
  else PyFloat.min 0.95 (PyFloat.of_int regular * 0.1)%float.

Definition is_scam (high regular : Z) : bool :=
  if 1 <=? high then true
  else (3 <=? regular) && PyFloat.gt (confidence high regular) 0.25.

Definition scam_type (scam : bool) (ctx : string) : option string :=
  if scam then
    if Py.any_in ["prize"; "lottery"; "winner"; "won"] ctx then Some "lottery_scam"
    else if Py.any_in ["kyc"; "verify"; "blocked"; "suspended"] ctx then Some "kyc_scam"
    else if Py.any_in ["bank"; "transfer"; "upi"; "payment"] ctx then Some "financial_scam"
    else if Py.any_in ["job"; "work from home"; "investment"] ctx then
      Some "job_investment_scam"
    else Some "unknown"
  else None.

Definition risk_level (conf : float) : string :=
  if PyFloat.gt conf 0.7 then "high"
  else if PyFloat.gt conf 0.4 then "medium"
  else "low".

Definition reasoning (high regular : Z) : string :=
  "Detected " ++ Py.str_of_Z high ++ " high-confidence and " ++
  Py.str_of_Z regular ++ " regular scam indicators".

Definition opt_str (o : option string) : json :=
  match o with
  | Some s => JStr s
  | None => JNull
  end.

(** The dictionary [result] that [_detect_scam] serialises, from the two
    counts and the scam type. *)
Definition result_dict (high regular : Z) (stype : option string)
  : list (string * json) :=
  let conf := confidence high regular in
  [ ("is_scam", JBool (is_scam high regular));
    ("confidence", JFloat conf);
    ("scam_type", opt_str stype);
    ("reasoning", JStr (reasoning high regular));
    ("risk_level", JStr (risk_level conf)) ].

Definition detect_result (text : string) : list (string * json) :=
  let ctx := full_context text in
  let high := high_matches ctx in
  let regular := regular_matches ctx in
  result_dict high regular (scam_type (is_scam high regular) ctx).

Definition _detect_scam (text : string) : string :=
  dumps (JObj (detect_result text)).

(** [generate]; [choice] is the index [random.choice] draws. *)
Definition generate (choice : nat) (prompt system_prompt : string) (temperature : float)
  : result string :=
  if Py.contains "analyze" (Py.lower prompt) && Py.contains "scam" (Py.lower prompt) then
    Ok (_detect_scam prompt)
  else
    Ok (nth (choice mod List.length ENGAGEMENT_RESPONSES) ENGAGEMENT_RESPONSES EmptyString).

End FallbackLLMClient.

(* ===================================================================== *)
(** ** [app/prompts.py]: the detection prompts *)
(* ===================================================================== *)

Module Prompts.

Definition nl : string := String (ascii_of_nat 10) EmptyString.
Definition dq : string := String Json.dquote EmptyString.

(** The lines of a text, joined by line feeds. *)
Definition text_of (lines : list string) : string := Py.join nl lines.

Definition SCAM_DETECTION_SYSTEM_PROMPT : string :=
  text_of
  [ "You are an expert scam detection AI analyst. Your task is to analyze messages for scam intent.";
    "";
    "IMPORTANT: You must NEVER reveal your analysis to the sender. This is a silent detection system.";
    "";
    "Common scam patterns to detect:";
    "1. LOTTERY/PRIZE SCAMS: Claims of winning money, prizes, or rewards";
    "2. KYC/VERIFICATION SCAMS: Fake bank/government requests for personal info";
    "3. FINANCIAL SCAMS: Requests for money transfers, UPI payments, advance fees";
    "4. PHISHING: Suspicious links, fake login pages, credential harvesting";
    "5. IMPERSONATION: Fake officials, bank representatives, government agents";
    "6. JOB/INVESTMENT SCAMS: Too-good-to-be-true offers, pyramid schemes";
    "7. TECH SUPPORT SCAMS: Fake virus alerts, remote access requests";
    "8. ROMANCE SCAMS: Building fake relationships to extract money";
    "";
    "Analyze the message considering:";
    "- Urgency tactics (" ++ dq ++ "act now" ++ dq ++ ", " ++ dq ++ "limited time" ++ dq ++ ", " ++ dq ++ "immediately" ++ dq ++ ")";
    "- Authority claims (fake officials, bank representatives)";
    "- Too-good-to-be-true offers";
    "- Requests for sensitive information (OTP, PIN, password, account details)";
    "- Suspicious links or contact methods";
    "- Pressure tactics and emotional manipulation";
    "- Grammar/spelling patterns common in scams";
    "- Context from conversation history";
    "";
    "You MUST respond in valid JSON format only." ].

(** [SCAM_DETECTION_USER_PROMPT.format(message=..., sender=..., channel=...,
    timestamp=..., conversation_history=...)] *)
Definition SCAM_DETECTION_USER_PROMPT
  (message sender channel timestamp conversation_history : string) : string :=
  (text_of
    [ "Analyze the following message for scam intent:";
      "";
      "MESSAGE: " ]) ++
  message ++
  (text_of
    [ "";
      "";
      "SENDER: " ]) ++
  sender ++
  (text_of
    [ "";
      "CHANNEL: " ]) ++
  channel ++
  (text_of
    [ "";
      "TIMESTAMP: " ]) ++
  timestamp ++
  (text_of
    [ "";
      "";
      "CONVERSATION HISTORY:";
      "" ]) ++
  conversation_history ++
  (text_of
    [ "";
      "";
      "Respond with a JSON object containing:";
      "{";
      "    " ++ dq ++ "is_scam" ++ dq ++ ": <boolean>,";
      "    " ++ dq ++ "confidence" ++ dq ++ ": <float between 0 and 1>,";
      "    " ++ dq ++ "scam_type" ++ dq ++ ": <string or null - e.g., " ++ dq ++ "lottery_scam" ++ dq ++ ", " ++ dq ++ "kyc_scam" ++ dq ++ ", " ++ dq ++ "phishing" ++ dq ++ ", " ++ dq ++ "financial_scam" ++ dq ++ ">,";
      "    " ++ dq ++ "reasoning" ++ dq ++ ": <string explaining your analysis>,";
      "    " ++ dq ++ "risk_level" ++ dq ++ ": <" ++ dq ++ "low" ++ dq ++ ", " ++ dq ++ "medium" ++ dq ++ ", " ++ dq ++ "high" ++ dq ++ ", or " ++ dq ++ "critical" ++ dq ++ ">";
      "}";
      "";
      "Remember: Analyze silently. Never reveal detection to the sender." ]).

End Prompts.

(* ===================================================================== *)
(** ** [app/models.py]: the request and the verdict *)
(* ===================================================================== *)

(** [Union[str, int, float]] *)
Inductive timestamp : Set :=
  | TsStr (s : string)
  | TsInt (n : Z)
  | TsFloat (f : float).

(** [str(ts)], as [str.format] renders the field. *)
Definition str_of_timestamp (ts : timestamp) : string :=
  match ts with
  | TsStr s => s
  | TsInt n => Py.str_of_Z n
  | TsFloat f => Json.float_repr f
  end.

Record Message : Set := {
  sender : string;
  text : string;
  msg_timestamp : timestamp
}.

Record ConversationMessage : Set := {
  cm_sender : string;
  cm_text : string;
  cm_timestamp : option timestamp
}.

Record Metadata : Set := {
  channel : string;
  language : string;
  locale : string
}.

Record HoneypotRequest : Set := {
  sessionId : option string;
  message : Message;
  conversationHistory : list ConversationMessage;
  metadata : option Metadata
}.

Record ScamAnalysis : Set := {
  is_scam : bool;
  confidence : float;
  scam_type : option string;
  reasoning : string;
  risk_level : string
}.

(* ===================================================================== *)
(** ** [app/scam_detector.py] *)
(* ===================================================================== *)

Module ScamDetector.

Import Json.

(** What the detector takes from its surroundings.
      - [rt_loads] is [json.loads];
      - [rt_float_of_str] is [float(s)] of a string;
      - [rt_bool_of], [rt_str_of] are what the model class makes of a
        field value that is not already a [bool], respectively a [str]
        (a conversion or a [ValidationError], depending on the value). *)
Record Runtime : Type := {
  rt_loads : string -> result json;
  rt_float_of_str : string -> result float;
  rt_bool_of : json -> result bool;
  rt_str_of : json -> result string
}.

(** [llm_client.generate(prompt, system_prompt, temperature)] *)
Definition Backend : Type := string -> string -> float -> result string.

Section Detector.

Variable rt : Runtime.
Variable llm_client : Backend.

(** [history[-10:]] *)
Definition last10 {A : Type} (l : list A) : list A :=
  skipn (List.length l - 10) l.

Definition _format_conversation_history (history : list ConversationMessage) : string :=
  match history with
  | [] => EmptyString
  | _ =>
      Py.join Prompts.nl
        (map (fun msg => Py.upper (cm_sender msg) ++ ": " ++ cm_text msg)
             (last10 history))
  end.

(** [float(v)] of a decoded value. *)
Definition to_float (v : json) : result float :=
  match v with
  | JFloat f => Ok f
  | JInt n =>
      let f := float_of_decimal (n <? 0) (Z.abs n) 0 in
      if PrimFloat.is_infinity f
      then Raise (Exn OverflowError "int too large to convert to float")
      else Ok f
  | JBool b => Ok (if b then 1 else 0)%float
  | JStr s => rt_float_of_str rt s
  | JNull | JArr _ | JObj _ =>
      Raise (Exn TypeError "float() argument must be a string or a real number")
  end.

(** [data.get]: only a [dict] has it. *)
Definition as_dict (data : json) : result (list (string * json)) :=
  match data with
  | JObj members => Ok members
  | _ => Raise (Exn AttributeError "object has no attribute 'get'")
  end.

Definition get_default (key : string) (default : json) (d : list (string * json)) : json :=
  match get key d with
  | Some v => v
  | None => default
  end.

(** The fields of the model class, validated. *)
Definition field_bool (v : json) : result bool :=
  match v with
  | JBool b => Ok b
  | _ => rt_bool_of rt v
  end.

Definition field_str (v : json) : result string :=
  match v with
  | JStr s => Ok s
  | _ => rt_str_of rt v
  end.

Definition field_opt_str (v : json) : result (option string) :=
  match v with
  | JNull => Ok None
  | _ => s <- field_str v ;; Ok (Some s)
  end.

(** [ScamAnalysis(is_scam=..., confidence=..., scam_type=..., reasoning=...,
    risk_level=...)] on decoded values. *)
Definition make_analysis (scam : json) (conf : float) (stype reason risk : json)
  : result ScamAnalysis :=
  b <- field_bool scam ;;
  t <- field_opt_str stype ;;
  r <- field_str reason ;;
  k <- field_str risk ;;
  Ok {| is_scam := b; confidence := conf; scam_type := t;
        reasoning := r; risk_level := k |}.

Definition fence : string := "```".

(** The cleaning step: the response stripped, and without its fence lines
    when it starts with a fence. *)
Definition clean (response : string) : string :=
  let cleaned := Py.strip response in
  if Py.startswith fence cleaned then
    Py.join Prompts.nl
      (filter (fun l => negb (Py.startswith fence (Py.strip l)))
              (Py.split (ascii_of_nat 10) cleaned))
  else cleaned.

(** The body of the [try] of [_parse_response]. *)
Definition parse_structured (response : string) : result ScamAnalysis :=
  data <- rt_loads rt (clean response) ;;
  d <- as_dict data ;;
  let scam := get_default "is_scam" (JBool false) d in
  conf <- to_float (get_default "confidence" (JFloat 0) d) ;;
  make_analysis scam conf
    (get_default "scam_type" JNull d)
    (get_default "reasoning" (JStr "No reasoning provided") d)
    (get_default "risk_level" (JStr "low") d).

(** The handler of [json.JSONDecodeError]. *)
Definition parse_unstructured (response : string) : ScamAnalysis :=
  let response_lower := Py.lower response in
  let scam :=
    Py.contains "true" response_lower && Py.contains "is_scam" response_lower in
  {| is_scam := scam;
     confidence := (if scam then 0.5 else 0.2)%float;
     scam_type := if scam then Some "unknown" else None;
     reasoning := "Parsed from unstructured response";
     risk_level := if scam then "medium" else "low" |}.

Definition _parse_response (response : string) : result ScamAnalysis :=
  match parse_structured response with
  | Ok analysis => Ok analysis
  | Raise e =>
      if is_JSONDecodeError e then Ok (parse_unstructured response)
      else Raise e
  end.

(** The safe default of [detect]. *)
Definition error_default (e : exn) : ScamAnalysis :=
  {| is_scam := false;
     confidence := 0;
     scam_type := None;
     reasoning := "Detection error: " ++ exn_msg e;
     risk_level := "low" |}.

(** [request.metadata.channel] *)
Definition metadata_channel (request : HoneypotRequest) : result string :=
  match metadata request with
  | Some m => Ok (channel m)
  | None =>
      Raise (Exn AttributeError "'NoneType' object has no attribute 'channel'")
  end.

(** The prompt of [detect], once the channel is known. *)
Definition detection_prompt (request : HoneypotRequest) (chan : string) : string :=
  let history_text := _format_conversation_history (conversationHistory request) in
  Prompts.SCAM_DETECTION_USER_PROMPT
    (text (message request))
    (sender (message request))
    chan
    (str_of_timestamp (msg_timestamp (message request)))
    (match history_text with
     | EmptyString => "No previous conversation"
     | _ => history_text
     end).

(** The body of the [try] of [detect]. *)
Definition detect_body (request : HoneypotRequest) : result ScamAnalysis :=
  chan <- metadata_channel request ;;
  response <-
    llm_client (detection_prompt request chan)
      Prompts.SCAM_DETECTION_SYSTEM_PROMPT 0.3%float ;;
  _parse_response response.

(** [detect]: every [Exception] of the body ends in the default. *)
Definition detect (request : HoneypotRequest) : result ScamAnalysis :=
  match detect_body request with
  | Ok analysis => Ok analysis
  | Raise e => Ok (error_default e)
  end.

End Detector.

(** The runtime with the decoder of this development; the conversions of
    ill-typed values are left to the caller. *)
Definition runtime (float_of_str : string -> result float)
  (bool_of : json -> result bool) (str_of : json -> result string) : Runtime :=
  {| rt_loads := loads; rt_float_of_str := float_of_str;
     rt_bool_of := bool_of; rt_str_of := str_of |}.

End ScamDetector.

(* ===================================================================== *)
(** ** The verdicts of the paths that need no backend *)
(* ===================================================================== *)

(** The verdict the rule based classifier decides on, as a record: the
    values of the five entries of the dictionary it serialises. *)
Definition rule_verdict_of (high regular : Z) (stype : option string) : ScamAnalysis :=
  {| is_scam := FallbackLLMClient.is_scam high regular;
     confidence := FallbackLLMClient.confidence high regular;
     scam_type := stype;
     reasoning := FallbackLLMClient.reasoning high regular;
     risk_level :=
       FallbackLLMClient.risk_level (FallbackLLMClient.confidence high regular) |}.

Definition rule_verdict (prompt : string) : ScamAnalysis :=
  let ctx := FallbackLLMClient.full_context prompt in
  let high := FallbackLLMClient.high_matches ctx in
  let regular := FallbackLLMClient.regular_matches ctx in
  rule_verdict_of high regular
    (FallbackLLMClient.scam_type (FallbackLLMClient.is_scam high regular) ctx).

(** The verdicts that come from the rule based classifier through the
    structured parse, from the handler of a response that does not
    decode, and from the handler of [detect]. *)
Inductive own_verdict : ScamAnalysis -> Prop :=
  | rule_based_path (float_of_str : string -> result float)
      (bool_of : Json.json -> result bool) (str_of : Json.json -> result string)
      (prompt : string) (v : ScamAnalysis) :
      ScamDetector._parse_response
        (ScamDetector.runtime float_of_str bool_of str_of)
        (FallbackLLMClient._detect_scam prompt) = Ok v ->
      own_verdict v
  | heuristic_path (response : string) :
      own_verdict (ScamDetector.parse_unstructured response)
  | default_path (e : exn) :
      own_verdict (ScamDetector.error_default e).

(** The order of the risk levels. *)
Definition risk_rank (level : string) : nat :=
  if String.eqb level "low" then 0
  else if String.eqb level "medium" then 1
  else if String.eqb level "high" then 2
  else 3.

(** [0 <= c <= 1] *)
Definition in_unit_interval (c : float) : bool :=
  PyFloat.le 0 c && PyFloat.le c 1.

(** Equality of two floats as data: same class, sign, mantissa, exponent. *)
Definition spec_float_eqb (x y : spec_float) : bool :=
  match x, y with
  | S754_zero s, S754_zero s' => Bool.eqb s s'
  | S754_infinity s, S754_infinity s' => Bool.eqb s s'
  | S754_nan, S754_nan => true
  | S754_finite s m e, S754_finite s' m' e' =>
      Bool.eqb s s' && Pos.eqb m m' && Z.eqb e e'
  | _, _ => false
  end.

Definition float_same (x y : float) : bool :=
  spec_float_eqb (Prim2SF x) (Prim2SF y).

Definition option_same (a b : option string) : bool :=
  match a, b with
  | Some x, Some y => String.eqb x y
  | None, None => true
  | _, _ => false
  end.

Definition analysis_same (a b : ScamAnalysis) : bool :=
  Bool.eqb (is_scam a) (is_scam b) && float_same (confidence a) (confidence b)
  && option_same (scam_type a) (scam_type b)
  && String.eqb (reasoning a) (reasoning b)
  && String.eqb (risk_level a) (risk_level b).

(** The integers [lo], [lo + 1], ..., [lo + n - 1]. *)
Definition Zrange (lo : Z) (n : nat) : list Z :=
  map (fun i => lo + Z.of_nat i) (seq 0 n).

(** The confidences of the verdicts of [own_verdict]: those of the rule
    based classifier, which depend on the count of phrases alone when it
    is at least one and on the count of keywords alone otherwise, and the
    three constants of the two handlers. *)
Definition own_confidences : list float :=
  map (fun h => FallbackLLMClient.confidence h 0) (Zrange 1 22)
  ++ map (FallbackLLMClient.confidence 0) (Zrange 0 48)
  ++ [0.5; 0.2; 0]%float.

(** Between two confidences, the higher never has the lower risk level. *)
Definition bucket_monotone (c1 c2 : float) : bool :=
  implb (PyFloat.le c1 c2)
        (risk_rank (FallbackLLMClient.risk_level c1)
         <=? risk_rank (FallbackLLMClient.risk_level c2))%nat.

(** The scam types the classifier can assign. *)
Definition scam_types : list (option string) :=
  [ None; Some "lottery_scam"; Some "kyc_scam"; Some "financial_scam";
    Some "job_investment_scam"; Some "unknown" ].

(* ===================================================================== *)
(** ** The [re] module, for the patterns of the extractor *)
(* ===================================================================== *)

Module Re.

(** The patterns of the extractor are alternatives of sequences of
    atoms: one character of a class, a greedy repetition of a class
    between [min] and [max] times, or the word boundary. *)
Inductive atom : Type :=
  | Chr (p : ascii -> bool)
  | Rep (p : ascii -> bool) (min : nat) (max : option nat)
  | WordB.

Definition pattern : Type := list (list atom).

(** [\w] *)
Definition is_word (c : ascii) : bool := Py.is_alnum c || Ascii.eqb c "_".

(** [\b] between the character before the position and the text after. *)
Definition at_boundary (prev : option ascii) (s : string) : bool :=
  let before := match prev with Some c => is_word c | None => false end in
  let after := match s with String c _ => is_word c | EmptyString => false end in
  xorb before after.

Definition may_repeat (max : option nat) : bool :=
  match max with
  | Some O => false
  | _ => true
  end.

Definition one_less (max : option nat) : option nat :=
  match max with
  | Some n => Some (Nat.pred n)
  | None => None
  end.

(** A greedy repetition followed by [k]: one more character when that
    leads to a match, otherwise stop here if [min] is reached.  The value
    is the number of characters matched. *)
Fixpoint rep (p : ascii -> bool) (min : nat) (max : option nat)
  (k : option ascii -> string -> option nat)
  (prev : option ascii) (s : string) {struct s} : option nat :=
  let stop := match min with O => k prev s | S _ => None end in
  match s with
  | EmptyString => stop
  | String c t =>
      if p c && may_repeat max then
        match rep p (Nat.pred min) (one_less max) k (Some c) t with
        | Some n => Some (S n)
        | None => stop
        end
      else stop
  end.

(** The atoms matched at the head of [s], by backtracking. *)
Fixpoint match_seq (atoms : list atom) (prev : option ascii) (s : string)
  {struct atoms} : option nat :=
  match atoms with
  | [] => Some O
  | Chr p :: rest =>
      match s with
      | String c t =>
          if p c then option_map S (match_seq rest (Some c) t) else None
      | EmptyString => None
      end
  | Rep p min max :: rest => rep p min max (match_seq rest) prev s
  | WordB :: rest =>
      if at_boundary prev s then match_seq rest prev s else None
  end.

(** The first alternative that matches. *)
Fixpoint match_at (pat : pattern) (prev : option ascii) (s : string) : option nat :=
  match pat with
  | [] => None
  | alt :: alts =>
      match match_seq alt prev s with
      | Some n => Some n
      | None => match_at alts prev s
      end
  end.

(** The scan of [findall]: [skip] characters of the last match are still
    to be passed over before the next attempt. *)
Fixpoint scan (pat : pattern) (prev : option ascii) (s : string) (skip : nat)
  {struct s} : list string :=
  match skip with
  | S k =>
      match s with
      | EmptyString => []
      | String c t => scan pat (Some c) t k
      end
  | O =>
      match match_at pat prev s with
      | Some n =>
          Py.take n s ::
          match s with
          | EmptyString => []
          | String c t => scan pat (Some c) t (Nat.pred n)
          end
      | None =>
          match s with
          | EmptyString => []
          | String c t => scan pat (Some c) t O
          end
      end
  end.

(** [pat.findall(s)] for a pattern without groups: the matches from left
    to right, none overlapping another. *)
Definition findall (pat : pattern) (s : string) : list string :=
  scan pat None s O.

(** A letter, whatever its case. *)
Definition ci (l : ascii) (c : ascii) : bool :=
  Ascii.eqb (Py.lower_char c) (Py.lower_char l).

Definition lit (l : ascii) (c : ascii) : bool := Ascii.eqb c l.

End Re.

(** [list(set(xs))]: the distinct elements of [xs] in the order in which
    the set yields them, which depends on the hashes of the strings and
    is not fixed by the language. *)
Record SetOrder : Type := {
  list_set : list string -> list string;
  list_set_perm : forall xs, Permutation (list_set xs) (nodup string_dec xs)
}.

(** One such order: that of first occurrence. *)
Definition first_occurrence : SetOrder :=
  {| list_set := nodup string_dec;
     list_set_perm := fun xs => Permutation_refl (nodup string_dec xs) |}.

Record ExtractedIntelligence : Set := {
  bankAccounts : list string;
  upiIds : list string;
  phishingLinks : list string
}.

(* ===================================================================== *)
(** ** [app/intelligence_extractor.py] *)
(* ===================================================================== *)

Module IntelligenceExtractor.

Import Re.

Definition upi_local (c : ascii) : bool := Py.is_alnum c || Py.char_in c "._-".

(** [\b[a-zA-Z0-9._-]+@[a-zA-Z]{2,}[a-zA-Z0-9]*\b], ignoring case *)
Definition UPI_PATTERN : pattern :=
  [[ WordB; Rep upi_local 1 None; Chr (lit "@");
     Rep Py.is_alpha 2 None; Rep Py.is_alnum 0 None; WordB ]].

(** [\b\d{9,18}\b] *)
Definition BANK_ACCOUNT_PATTERN : pattern :=
  [[ WordB; Rep Py.is_digit 9 (Some 18%nat); WordB ]].

(** [\b[A-Z]{4}0[A-Z0-9]{6}\b], ignoring case *)
Definition IFSC_PATTERN : pattern :=
  [[ WordB; Rep Py.is_alpha 4 (Some 4%nat); Chr (lit "0");
     Rep Py.is_alnum 6 (Some 6%nat); WordB ]].

(** The characters a link may not contain: white space, the angle
    brackets, both quotes, the braces, the bar, the backslash, the caret,
    the backquote and the square brackets. *)
Definition url_stop : string :=
  "<>" ++ String Json.dquote ("'{}|" ++ String Json.backslash "^`[]").

Definition url_char (c : ascii) : bool :=
  negb (Py.is_space c || Py.char_in c url_stop).

(** The pattern local to [_extract_phishing_links]:
    [https?://...] or [www\....], ignoring case. *)
Definition url_pattern : pattern :=
  [ [ Chr (ci "h"); Chr (ci "t"); Chr (ci "t"); Chr (ci "p");
      Rep (ci "s") 0 (Some 1%nat);
      Chr (lit ":"); Chr (lit "/"); Chr (lit "/"); Rep url_char 1 None ];
    [ Chr (ci "w"); Chr (ci "w"); Chr (ci "w"); Chr (lit ".");
      Rep url_char 1 None ] ].

Definition VALID_UPI_SUFFIXES : list string :=
  [ "ybl"; "okhdfcbank"; "okaxis"; "oksbi"; "okicici";
    "paytm"; "upi"; "gpay"; "ibl"; "axl"; "sbi";
    "icici"; "hdfc"; "axis"; "kotak"; "bob"; "pnb";
    "canara"; "union"; "indian"; "idbi"; "rbl"; "yes";
    "federal"; "indus"; "dbs"; "citi"; "hsbc"; "sc";
    "apl"; "pingpay"; "freecharge"; "airtel"; "jio";
    "waaxis"; "wahdfcbank"; "wasbi"; "waicici" ].

Definition SUSPICIOUS_INDICATORS : list string :=
  [ "verify"; "secure"; "update"; "confirm"; "login";
    "bank"; "account"; "claim"; "prize"; "winner";
    "kyc"; "suspend"; "block"; "urgent"; "reward";
    "lottery"; "lucky"; "bonus"; "offer"; "free" ].

(** [text.split('@')[-1].lower()] *)
Definition suffix_of (candidate : string) : string :=
  Py.lower (Py.last_part (Py.split "@" candidate)).

Definition email_domains : list string :=
  [ "gmail"; "yahoo"; "hotmail"; "outlook"; "mail"; "email" ].

Definition _is_likely_email (candidate : string) : bool :=
  Py.any_in email_domains (suffix_of candidate).

(** [re.match(r'^\d{10}@', candidate)] *)
Definition phone_based (candidate : string) : bool :=
  match match_seq [Rep Py.is_digit 10 (Some 10%nat); Chr (lit "@")] None candidate with
  | Some _ => true
  | None => false
  end.

(** The test of the loop of [_extract_upi_ids] on one candidate. *)
Definition upi_accepts (candidate : string) : bool :=
  if _is_likely_email candidate then false
  else
    let suffix := suffix_of candidate in
    if Py.mem suffix VALID_UPI_SUFFIXES || Py.contains "upi" suffix
       || Py.contains "pay" suffix
    then true
    else phone_based candidate.

Definition _extract_upi_ids (text : string) : list string :=
  filter upi_accepts (findall UPI_PATTERN text).

Definition bank_keywords : list string :=
  [ "account"; "a/c"; "bank"; "transfer"; "send"; "money";
    "deposit"; "credit"; "debit"; "neft"; "rtgs"; "imps";
    "ifsc"; "branch"; "savings"; "current" ].

Definition _has_bank_context (text number : string) : bool :=
  let pos := Py.find text number 0 in
  if pos =? -1 then true
  else
    let start := Z.max 0 (pos - 100) in
    let stop := Z.min (Py.len text) (pos + Py.len number + 100) in
    let context := Py.lower (Py.slice text start stop) in
    Py.any_in bank_keywords context.

(** [len(acc) == 10 and acc[0] in '6789'] *)
Definition looks_like_phone (acc : string) : bool :=
  (Py.len acc =? 10) &&
  match acc with
  | String c _ => Py.char_in c "6789"
  | EmptyString => false
  end.

(** The test of the loop of [_extract_bank_info] on one candidate. *)
Definition account_accepts (text acc : string) : bool :=
  if looks_like_phone acc then false
  else if (Py.len acc <? 9) || (18 <? Py.len acc) then false
  else _has_bank_context text acc.

Definition _extract_bank_info (text : string) : list string * list string :=
  let valid_accounts :=
    filter (account_accepts text) (findall BANK_ACCOUNT_PATTERN text) in
  let ifsc_codes := findall IFSC_PATTERN text in
  (valid_accounts, ifsc_codes).

Definition legitimate_domains : list string :=
  [ "google.com"; "facebook.com"; "twitter.com"; "instagram.com";
    "youtube.com"; "github.com"; "linkedin.com"; "microsoft.com";
    "apple.com"; "amazon.com"; "wikipedia.org"; "gov.in";
    "sbi.co.in"; "hdfcbank.com"; "icicibank.com"; "axisbank.com" ].

Definition _is_legitimate_domain (url : string) : bool :=
  Py.any_in legitimate_domains url.

Definition shorteners : list string :=
  [ "bit.ly"; "tinyurl"; "goo.gl"; "t.co"; "ow.ly"; "is.gd"; "buff.ly" ].

Definition suspicious_tlds : list string :=
  [ ".tk"; ".ml"; ".ga"; ".cf"; ".gq"; ".xyz"; ".top"; ".click";
    ".online"; ".site"; ".win"; ".vip" ].

(** [url.strip('.,;:!?()')] *)
Definition trim_url (url : string) : string :=
  Py.strip_by (fun c => Py.char_in c ".,;:!?()") url.

(** The test of the loop of [_extract_phishing_links] on one trimmed link. *)
Definition link_flagged (url : string) : bool :=
  let url_lower := Py.lower url in
  if _is_legitimate_domain url_lower then false
  else
    let is_suspicious := Py.any_in SUSPICIOUS_INDICATORS url_lower in
    let is_shortened := Py.any_in shorteners url_lower in
    let has_suspicious_tld := Py.any_in suspicious_tlds url_lower in
    is_suspicious || is_shortened || has_suspicious_tld.

Definition _extract_phishing_links (text : string) : list string :=
  filter link_flagged (map trim_url (findall url_pattern text)).

Section Extract.

Variable order : SetOrder.

Definition extract_all (text : string) : ExtractedIntelligence :=
  let upi_ids := _extract_upi_ids text in
  let '(bank_accounts, ifsc_codes) := _extract_bank_info text in
  let phishing_links := _extract_phishing_links text in
  let bank_info :=
    List.app (list_set order bank_accounts)
             (map (fun ifsc => "IFSC: " ++ ifsc) ifsc_codes) in
  {| bankAccounts := firstn 10 bank_info;
     upiIds := firstn 10 (list_set order upi_ids);
     phishingLinks := firstn 10 (list_set order phishing_links) |}.

End Extract.

End IntelligenceExtractor.

(* ===================================================================== *)
(** * Properties *)
(* ===================================================================== *)

(** ** Strings and substrings *)

Section StringFacts.

Lemma append_nil_r (s : string) : s ++ "" = s.
Proof. induction s as [|c s IH]; simpl; [reflexivity | now rewrite IH]. Qed.

Lemma append_assoc (a b c : string) : (a ++ b) ++ c = a ++ (b ++ c).
Proof. induction a as [|x a IH]; simpl; [reflexivity | now rewrite IH]. Qed.

Lemma startswith_true_iff (p s : string) :
  Py.startswith p s = true <-> exists r, s = p ++ r.
Proof.
  revert s; induction p as [|a p IH]; intros s; simpl.
  - split; [intros _; now exists s | reflexivity].
  - destruct s as [|b s].
    + split; [discriminate | intros [r Hr]; discriminate].
    + rewrite andb_true_iff, Ascii.eqb_eq, IH. split.
      * intros [-> [r ->]]. now exists r.
      * intros [r Hr]. injection Hr as -> ->. split; [reflexivity | now exists r].
Qed.

Lemma Substring_refl (s : string) : Substring s s.
Proof. exists "", "". simpl. now rewrite append_nil_r. Qed.

Lemma Substring_trans (a b c : string) :
  Substring a b -> Substring b c -> Substring a c.
Proof.
  intros (p1 & q1 & ->) (p2 & q2 & ->).
  exists (p2 ++ p1), (q1 ++ q2). now rewrite !append_assoc.
Qed.

Lemma Substring_tail (a : string) (c : ascii) (s : string) :
  Substring a s -> Substring a (String c s).
Proof. intros (p & q & ->). now exists (String c p), q. Qed.

Lemma contains_true_iff (needle hay : string) :
  Py.contains needle hay = true <-> Substring needle hay.
Proof.
  induction hay as [|c hay IH]; simpl.
  - rewrite orb_false_r, startswith_true_iff. split.
    + intros [r Hr]. now exists "", r.
    + intros (p & q & H). destruct p; [now exists q | discriminate].
  - rewrite orb_true_iff, startswith_true_iff, IH. split.
    + intros [[r Hr] | H]; [now exists "", r | now apply Substring_tail].
    + intros (p & q & H). destruct p as [|x p]; simpl in H.
      * left. now exists q.
      * right. injection H as _ ->. now exists p, q.
Qed.

Lemma take_drop (n : nat) (s : string) : s = Py.take n s ++ Py.drop n s.
Proof.
  revert s; induction n as [|n IH]; intros [|c s]; simpl; try reflexivity.
  now rewrite <- IH.
Qed.

Lemma Substring_take (n : nat) (s : string) : Substring (Py.take n s) s.
Proof. exists "", (Py.drop n s). simpl. apply take_drop. Qed.

Lemma Substring_drop (n : nat) (s : string) : Substring (Py.drop n s) s.
Proof.
  exists (Py.take n s), "". rewrite append_nil_r. apply take_drop.
Qed.

Lemma Substring_lstrip (p : ascii -> bool) (s : string) :
  Substring (Py.lstrip_by p s) s.
Proof.
  induction s as [|c s IH]; simpl.
  - apply Substring_refl.
  - destruct (p c); [now apply Substring_tail | apply Substring_refl].
Qed.

Lemma rstrip_prefix (p : ascii -> bool) (s : string) :
  exists r, s = Py.rstrip_by p s ++ r.
Proof.
  induction s as [|c s [r IH]]; simpl.
  - now exists "".
  - destruct (Py.rstrip_by p s) as [|d t] eqn:E.
    + destruct (p c).
      * now exists (String c s).
      * exists s. reflexivity.
    + exists r. simpl. simpl in IH. now rewrite <- IH.
Qed.

Lemma Substring_strip (p : ascii -> bool) (s : string) :
  Substring (Py.strip_by p s) s.
Proof.
  unfold Py.strip_by. eapply Substring_trans; [|apply Substring_lstrip].
  destruct (rstrip_prefix p (Py.lstrip_by p s)) as [r Hr].
  exists "", r. exact Hr.
Qed.

End StringFacts.

(** ** What [findall] returns *)

Section FindallFacts.

Lemma scan_Substring (pat : Re.pattern) (s : string) :
  forall prev skip x, In x (Re.scan pat prev s skip) -> Substring x s.
Proof.
  induction s as [|c s IH]; intros prev skip x.
  - destruct skip as [|k]; simpl; [|tauto].
    destruct (Re.match_at pat prev ""); simpl; [|tauto].
    intros [<- | []]. apply Substring_take.
  - destruct skip as [|k]; simpl.
    + destruct (Re.match_at pat prev (String c s)) as [n|].
      * intros [<- | H]; [apply Substring_take|].
        apply Substring_tail. eapply IH; eassumption.
      * intros H. apply Substring_tail. eapply IH; eassumption.
    + intros H. apply Substring_tail. eapply IH; eassumption.
Qed.

Lemma findall_Substring (pat : Re.pattern) (s x : string) :
  In x (Re.findall pat s) -> Substring x s.
Proof. apply scan_Substring. Qed.

End FindallFacts.

(** ** [list(set(xs))] and the cut at ten *)

Section SetFacts.

Variable order : SetOrder.

Lemma list_set_In (xs : list string) (x : string) :
  In x (list_set order xs) <-> In x xs.
Proof.
  split; intros H.
  - eapply nodup_In. eapply Permutation_in; [apply list_set_perm | exact H].
  - eapply Permutation_in; [apply Permutation_sym, list_set_perm|].
    now apply nodup_In.
Qed.


Lemma firstn_In {A : Type} (n : nat) (l : list A) (x : A) :
  In x (firstn n l) -> In x l.
Proof.
  intros H. rewrite <- (firstn_skipn n l). apply in_or_app. now left.
Qed.


End SetFacts.

(** ** The extractor *)

Section ExtractorFacts.

Import IntelligenceExtractor.

Variable order : SetOrder.

Lemma bankAccounts_In (text x : string) :
  In x (bankAccounts (extract_all order text)) ->
  (In x (Re.findall BANK_ACCOUNT_PATTERN text) /\ account_accepts text x = true) \/
  (exists code, x = "IFSC: " ++ code /\ In code (Re.findall IFSC_PATTERN text)).
Proof.
  unfold extract_all, _extract_bank_info. cbn [bankAccounts].
  intros H. apply firstn_In, in_app_or in H. destruct H as [H | H].
  - left. apply list_set_In, filter_In in H. exact H.
  - right. apply in_map_iff in H. destruct H as (code & <- & H). now exists code.
Qed.

Lemma upiIds_In (text x : string) :
  In x (upiIds (extract_all order text)) -> In x (_extract_upi_ids text).
Proof.
  unfold extract_all. destruct (_extract_bank_info text). cbn [upiIds].
  intros H. now apply firstn_In, list_set_In in H.
Qed.

Lemma phishingLinks_In (text x : string) :
  In x (phishingLinks (extract_all order text)) -> In x (_extract_phishing_links text).
Proof.
  unfold extract_all. destruct (_extract_bank_info text). cbn [phishingLinks].
  intros H. now apply firstn_In, list_set_In in H.
Qed.



End ExtractorFacts.

(** C7.  Whatever the text, each of the three lists of [extract_all] has at
    most ten entries. *)
Theorem extract_all_lists_capped (order : SetOrder) (text : string) :
  let r := IntelligenceExtractor.extract_all order text in
  (List.length (bankAccounts r) <= 10)%nat /\
  (List.length (upiIds r) <= 10)%nat /\
  (List.length (phishingLinks r) <= 10)%nat.
Proof.
  unfold IntelligenceExtractor.extract_all.
  destruct (IntelligenceExtractor._extract_bank_info text) as [accounts codes].
  cbn [bankAccounts upiIds phishingLinks].
  repeat split; apply firstn_le_length.
Qed.

(** C8.  A string of ten characters whose first is 6, 7, 8 or 9 (a mobile
    number) is never an entry of [bankAccounts]; this holds whether or not
    a bank keyword stands near it in the text. *)
Theorem mobile_number_never_a_bank_account
  (order : SetOrder) (text run : string) :
  IntelligenceExtractor.looks_like_phone run = true ->
  ~ In run (bankAccounts (IntelligenceExtractor.extract_all order text)).
Proof.
  intros Hphone Hin.
  destruct (bankAccounts_In order text run Hin) as [[_ Hacc] | (code & -> & _)].
  - unfold IntelligenceExtractor.account_accepts in Hacc.
    rewrite Hphone in Hacc. discriminate.
  - unfold IntelligenceExtractor.looks_like_phone in Hphone.
    apply andb_true_iff in Hphone. destruct Hphone as [_ Hfirst].
    simpl in Hfirst. discriminate.
Qed.

(** The run 9876543210 of the text below is a maximal run of ten digits and
    stands next to the keyword "bank"; it is not reported. *)
Lemma mobile_number_never_a_bank_account_witness :
  IntelligenceExtractor.looks_like_phone "9876543210" = true /\
  ~ In "9876543210"
      (bankAccounts (IntelligenceExtractor.extract_all first_occurrence
                       "my bank account, call 9876543210 now")).
Proof.
  split; [reflexivity|].
  apply (mobile_number_never_a_bank_account first_occurrence
           "my bank account, call 9876543210 now" "9876543210").
  reflexivity.
Defined.

(** C3, as stated, fails: the routing code of the text below is reported
    with a label in front that the text does not have. *)
Lemma labelled_routing_code_not_in_text :
  In "IFSC: HDFC0001234"
     (bankAccounts (IntelligenceExtractor.extract_all first_occurrence
                      "account 12345678901234 IFSC HDFC0001234")) /\
  ~ Substring "IFSC: HDFC0001234" "account 12345678901234 IFSC HDFC0001234".
Proof.
  split.
  - vm_compute. right. left. reflexivity.
  - intros H. apply contains_true_iff in H. vm_compute in H. discriminate.
Qed.

(** C3, amended.  Every entry of [upiIds] and of [phishingLinks] is a
    substring of the text; an entry of [bankAccounts] is a substring of the
    text, or the label "IFSC: " followed by a substring of the text. *)
Theorem extracted_entries_come_from_text
  (order : SetOrder) (text x : string) :
  let r := IntelligenceExtractor.extract_all order text in
  (In x (upiIds r) -> Substring x text) /\
  (In x (phishingLinks r) -> Substring x text) /\
  (In x (bankAccounts r) ->
   Substring x text \/
   exists code, x = "IFSC: " ++ code /\ Substring code text).
Proof.
  cbv zeta. split; [|split].
  - intros H. apply upiIds_In in H.
    unfold IntelligenceExtractor._extract_upi_ids in H.
    apply filter_In in H. destruct H as [H _].
    now apply findall_Substring in H.
  - intros H. apply phishingLinks_In in H.
    unfold IntelligenceExtractor._extract_phishing_links in H.
    apply filter_In in H. destruct H as [H _].
    apply in_map_iff in H. destruct H as (u & <- & H).
    eapply Substring_trans; [apply Substring_strip|].
    now apply findall_Substring in H.
  - intros H. destruct (bankAccounts_In order text x H) as [[Hc _] | (code & -> & Hc)].
    + left. now apply findall_Substring in Hc.
    + right. exists code. split; [reflexivity|]. now apply findall_Substring in Hc.
Qed.







(** ** The rule based classifier *)

Section ClassifierFacts.

Import FallbackLLMClient.

Lemma count_in_range (keys : list string) (s : string) :
  0 <= Py.count_in keys s <= Z.of_nat (List.length keys).
Proof.
  unfold Py.count_in. split; [lia|].
  apply Nat2Z.inj_le, filter_length_le.
Qed.

Lemma high_matches_range (ctx : string) : 0 <= high_matches ctx <= 22.
Proof. apply (count_in_range high_confidence_keywords). Qed.

Lemma regular_matches_range (ctx : string) : 0 <= regular_matches ctx <= 47.
Proof. apply (count_in_range SCAM_KEYWORDS). Qed.

Lemma In_Zrange (lo z : Z) (n : nat) :
  lo <= z < lo + Z.of_nat n -> In z (Zrange lo n).
Proof.
  intros H. unfold Zrange. apply in_map_iff.
  exists (Z.to_nat (z - lo)). split; [lia|]. apply in_seq. lia.
Qed.

(** On the counts that can occur, the product of a count and a weight
    does not depend on the order of its factors. *)
Lemma high_weight_comm (h : Z) :
  0 <= h <= 22 -> (PyFloat.of_int h * 0.2 = 0.2 * PyFloat.of_int h)%float.
Proof.
  intros H.
  assert (Hall : Forall (fun h => (PyFloat.of_int h * 0.2 = 0.2 * PyFloat.of_int h)%float)
                        (Zrange 0 23)).
  { vm_compute. repeat constructor. }
  rewrite Forall_forall in Hall. apply Hall, In_Zrange. lia.
Qed.

Lemma regular_weight_comm (r : Z) :
  0 <= r <= 47 -> (PyFloat.of_int r * 0.1 = 0.1 * PyFloat.of_int r)%float.
Proof.
  intros H.
  assert (Hall : Forall (fun r => (PyFloat.of_int r * 0.1 = 0.1 * PyFloat.of_int r)%float)
                        (Zrange 0 48)).
  { vm_compute. repeat constructor. }
  rewrite Forall_forall in Hall. apply Hall, In_Zrange. lia.
Qed.

Lemma scam_type_In (scam : bool) (ctx : string) : In (scam_type scam ctx) scam_types.
Proof.
  unfold scam_type, scam_types. destruct scam; [|now left].
  repeat match goal with
         | |- context [if ?b then _ else _] => destruct b
         end; simpl; tauto.
Qed.

End ClassifierFacts.

(** C2.  On the analysis window of a prompt, with [h] matches of the
    high-confidence phrases and [r] matches of the keywords, the verdict
    of the rule based classifier has: when [h >= 1], [is_scam] true and
    confidence [min(0.95, 0.5 + 0.2 * h)]; otherwise confidence
    [min(0.95, 0.1 * r)] and [is_scam] exactly when [r >= 3] and the
    confidence exceeds 0.25; and the risk level "high" above 0.7,
    "medium" above 0.4, "low" otherwise. *)
Theorem rule_based_decision (prompt : string) :
  let ctx := FallbackLLMClient.full_context prompt in
  let h := FallbackLLMClient.high_matches ctx in
  let r := FallbackLLMClient.regular_matches ctx in
  let d := FallbackLLMClient.detect_result prompt in
  exists (scam : bool) (conf : float) (level : string),
    Json.get "is_scam" d = Some (Json.JBool scam) /\
    Json.get "confidence" d = Some (Json.JFloat conf) /\
    Json.get "risk_level" d = Some (Json.JStr level) /\
    (1 <= h ->
     scam = true /\
     conf = PyFloat.min 0.95 (0.5 + 0.2 * PyFloat.of_int h)%float) /\
    (h < 1 ->
     conf = PyFloat.min 0.95 (0.1 * PyFloat.of_int r)%float /\
     scam = (3 <=? r) && PyFloat.gt conf 0.25) /\
    level = (if PyFloat.gt conf 0.7 then "high"
             else if PyFloat.gt conf 0.4 then "medium" else "low").
Proof.
  intros ctx h r d.
  exists (FallbackLLMClient.is_scam h r), (FallbackLLMClient.confidence h r),
         (FallbackLLMClient.risk_level (FallbackLLMClient.confidence h r)).
  split; [reflexivity|]. split; [reflexivity|]. split; [reflexivity|].
  pose proof (high_matches_range ctx) as Hh. fold h in Hh.
  pose proof (regular_matches_range ctx) as Hr. fold r in Hr.
  unfold FallbackLLMClient.is_scam, FallbackLLMClient.confidence.
  split; [|split].
  - intros H1. apply Z.leb_le in H1. rewrite H1.
    rewrite high_weight_comm by exact Hh. split; reflexivity.
  - intros H0. apply Z.leb_gt in H0. rewrite H0.
    rewrite regular_weight_comm by exact Hr. split; reflexivity.
  - reflexivity.
Qed.

(** ** What [loads] makes of what [dumps] wrote *)

Section JsonFacts.

Import Json.

Lemma plain_char_escape (c : ascii) :
  plain_char c = true -> escape_char c = String c EmptyString.
Proof.
  unfold plain_char, escape_char. cbv zeta.
  rewrite !andb_true_iff, !negb_true_iff. intros [[[H1 H2] H3] H4].
  rewrite H3, H4.
  apply Nat.leb_le in H1.
  repeat match goal with
         | |- context [(Py.code c =? ?k)%nat] =>
             destruct (Nat.eqb_spec (Py.code c) k); [lia|]
         end.
  apply Nat.leb_le in H1. now rewrite H1, H2.
Qed.

Lemma plain_escape (s : string) : plain s = true -> escape s = s.
Proof.
  induction s as [|c s IH]; simpl; [reflexivity|].
  rewrite andb_true_iff. intros [Hc Hs].
  now rewrite plain_char_escape, IH.
Qed.

Lemma plain_char_scan (c : ascii) :
  plain_char c = true ->
  Ascii.eqb c dquote = false /\ Ascii.eqb c backslash = false /\
  (Py.code c <? 32)%nat = false.
Proof.
  unfold plain_char. cbv zeta.
  rewrite !andb_true_iff, !negb_true_iff. intros [[[H1 H2] H3] H4].
  apply Nat.eqb_neq in H3, H4. apply Nat.leb_le in H1.
  repeat split.
  - apply Ascii.eqb_neq. intros ->. now apply H3.
  - apply Ascii.eqb_neq. intros ->. now apply H4.
  - apply Nat.ltb_ge. exact H1.
Qed.

Lemma scan_string_plain (s rest : string) :
  plain s = true -> scan_string (s ++ String dquote rest) = Some (s, rest).
Proof.
  induction s as [|c s IH]; simpl.
  - intros _. reflexivity.
  - rewrite andb_true_iff. intros [Hc Hs].
    destruct (plain_char_scan c Hc) as (H1 & H2 & H3).
    rewrite H1, H2, H3, IH by exact Hs. reflexivity.
Qed.

Lemma quote_plain (s rest : string) :
  plain s = true -> quote s ++ rest = String dquote (s ++ String dquote rest).
Proof.
  intros H. unfold quote. rewrite plain_escape by exact H.
  simpl. now rewrite append_assoc.
Qed.

Lemma scannable_bool (b : bool) : scannable (JBool b).
Proof.
  split.
  - destruct b; simpl; eauto.
  - intros f d rest _. destruct b; reflexivity.
Qed.

Lemma scannable_null : scannable JNull.
Proof.
  split.
  - simpl; eauto.
  - intros f d rest _. reflexivity.
Qed.

Lemma scannable_str (s : string) : plain s = true -> scannable (JStr s).
Proof.
  intros Hs. split.
  - exists dquote. eexists. split; [reflexivity | reflexivity].
  - intros f d rest _. cbn [dumps]. rewrite quote_plain by exact Hs.
    cbn [scan_once]. replace (Ascii.eqb dquote dquote) with true by reflexivity.
    now rewrite scan_string_plain.
Qed.

End JsonFacts.

(** ** The structured parse of the classifier's own output *)

Section RoundTrip.

Import Json ScamDetector.

Lemma rule_confidence_In (h r : Z) :
  0 <= h <= 22 -> 0 <= r <= 47 ->
  In (FallbackLLMClient.confidence h r) own_confidences.
Proof.
  intros Hh Hr. unfold own_confidences.
  destruct (Z_le_gt_dec 1 h) as [H1 | H0].
  - apply in_or_app. left.
    replace (FallbackLLMClient.confidence h r) with (FallbackLLMClient.confidence h 0).
    + apply (in_map (fun h => FallbackLLMClient.confidence h 0)), In_Zrange. lia.
    + unfold FallbackLLMClient.confidence. apply Z.leb_le in H1. now rewrite H1.
  - apply in_or_app. right. apply in_or_app. left.
    replace h with 0 by lia. apply in_map, In_Zrange. lia.
Qed.

Lemma scannable_confidence (c : float) : In c own_confidences -> scannable (JFloat c).
Proof.
  intros Hin. vm_compute in Hin.
  repeat (destruct Hin as [<- | Hin];
          [split;
           [eexists; eexists; split; [vm_compute; reflexivity | reflexivity]
           | intros f d rest [-> | ->]; vm_compute; reflexivity]|]).
  destruct Hin.
Qed.

Lemma skip_ws_head (c : ascii) (t : string) :
  is_ws c = false -> skip_ws (String c t) = String c t.
Proof. intros H. unfold skip_ws. simpl. now rewrite H. Qed.

Lemma skip_ws_app (a x : string) (c : ascii) (t : string) :
  a = String c t -> is_ws c = false -> skip_ws (a ++ x) = a ++ x.
Proof. intros -> H. cbn [append]. now apply skip_ws_head. Qed.

Lemma comma_join_cons {A : Type} (f : A -> string) (x y : A) (r : list A) :
  comma_join f (x :: y :: r) = f x ++ ", " ++ comma_join f (y :: r).
Proof. reflexivity. Qed.

Lemma comma_join_one {A : Type} (f : A -> string) (x : A) :
  comma_join f [x] = f x.
Proof. simpl. induction (f x) as [|c s IH]; simpl; [reflexivity | now rewrite IH]. Qed.

Lemma dumps_member_head (kv : string * json) (x : string) :
  exists u, dumps_member kv ++ x = String dquote u.
Proof. destruct kv as [k v]. unfold dumps_member, quote. cbn [append]. eauto. Qed.

(** One step of the scan of the items of a dictionary. *)
Lemma scan_members_step (f : nat) (t : string) (acc : list (string * json)) :
  scan_members (S f) (String dquote t) acc =
  match scan_string t with
  | Some (k, r) =>
      match skip_ws r with
      | String ":" r1 =>
          match scan_once f (skip_ws r1) with
          | Some (v, r2) =>
              match skip_ws r2 with
              | String "," r3 => scan_members f (skip_ws r3) ((k, v) :: acc)
              | String "}" r3 => Some (JObj (rev ((k, v) :: acc)), r3)
              | _ => None
              end
          | None => None
          end
      | _ => None
      end
  | None => None
  end.
Proof. reflexivity. Qed.

(** One item, then a delimiter. *)
Lemma scan_member (f : nat) (k : string) (v : json) (d : ascii) (rest : string)
  (acc : list (string * json)) :
  plain k = true -> scannable v -> delimiter d ->
  scan_members (S (S f)) (dumps_member (k, v) ++ String d rest) acc =
  if Ascii.eqb d ","
  then scan_members (S f) (skip_ws rest) ((k, v) :: acc)
  else Some (JObj (rev ((k, v) :: acc)), rest).
Proof.
  intros Hk [(c & t & Hhead & Hc) Hscan] Hd.
  unfold dumps_member. rewrite !append_assoc, quote_plain by exact Hk.
  rewrite scan_members_step, scan_string_plain by exact Hk.
  cbn [append]. rewrite skip_ws_head by reflexivity.
  change (skip_ws (String " " ?x)) with (skip_ws x).
  rewrite (skip_ws_app _ _ c t Hhead Hc), (Hscan _ d rest Hd).
  destruct Hd as [-> | ->]; rewrite skip_ws_head by reflexivity; reflexivity.
Qed.

(** The scanner reads back the items of a dictionary whose keys are plain
    and whose values are scannable. *)
Lemma scan_members_dumps (members : list (string * json)) :
  members <> [] ->
  Forall (fun kv => plain (fst kv) = true /\ scannable (snd kv)) members ->
  forall f acc rest,
    scan_members (S (List.length members + f))
      (comma_join dumps_member members ++ String "}" rest) acc
    = Some (JObj (rev acc ++ members), rest).
Proof.
  induction members as [|[k v] more IH]; [congruence|].
  intros _ Hall f acc rest. inversion Hall as [|? ? [Hk Hv] Hmore]; subst.
  cbn [fst snd] in Hk, Hv.
  destruct more as [|kv' more'].
  - rewrite comma_join_one. cbn [List.length Nat.add].
    rewrite scan_member by (try assumption; now right).
    cbn [rev]. reflexivity.
  - rewrite comma_join_cons, append_assoc. cbn [append].
    change (S (List.length ((k, v) :: kv' :: more') + f))
      with (S (S (List.length (kv' :: more') + f))).
    rewrite scan_member by (try assumption; now left).
    replace (Ascii.eqb "," ",") with true by reflexivity.
    change (skip_ws (String " " ?x)) with (skip_ws x).
    destruct (dumps_member_head kv'
                (match more' with [] => "" | _ :: _ => ", " ++ comma_join dumps_member more' end
                 ++ String "}" rest)) as [u Hu].
    assert (Hform : comma_join dumps_member (kv' :: more') ++ String "}" rest
                    = String dquote u).
    { rewrite <- Hu. cbn [comma_join]. now rewrite append_assoc. }
    rewrite Hform, skip_ws_head by reflexivity. rewrite <- Hform.
    assert (Htail : kv' :: more' <> []) by congruence.
    rewrite (IH Htail Hmore f ((k, v) :: acc) rest).
    cbn [rev]. now rewrite <- app_assoc.
Qed.


(** [loads] of a dictionary written by [dumps]. *)
Lemma str_length_app (a b : string) :
  String.length (a ++ b) = (String.length a + String.length b)%nat.
Proof. induction a as [|c a IH]; simpl; [reflexivity | now rewrite IH]. Qed.

Lemma dumps_member_length (kv : string * json) :
  (1 <= String.length (dumps_member kv))%nat.
Proof. destruct kv as [k v]. unfold dumps_member, quote. simpl. lia. Qed.

Lemma comma_join_length (members : list (string * json)) :
  (List.length members <= String.length (comma_join dumps_member members))%nat.
Proof.
  induction members as [|kv more IH]; [apply Nat.le_refl|].
  pose proof (dumps_member_length kv) as Hkv.
  destruct more as [|kv' more'].
  - rewrite comma_join_one. simpl. lia.
  - rewrite comma_join_cons, !str_length_app.
    change (List.length (kv :: kv' :: more')) with (S (List.length (kv' :: more'))).
    lia.
Qed.

Lemma dumps_object (members : list (string * json)) :
  dumps (JObj members) = String "{" (comma_join dumps_member members ++ "}").
Proof. reflexivity. Qed.

Lemma scan_once_object (f : nat) (u : string) :
  scan_once (S f) (String "{" (String dquote u)) = scan_members f (String dquote u) [].
Proof. reflexivity. Qed.

Lemma loads_dumps_object (members : list (string * json)) :
  members <> [] ->
  Forall (fun kv => plain (fst kv) = true /\ scannable (snd kv)) members ->
  loads (dumps (JObj members)) = Ok (JObj members).
Proof.
  intros Hne Hall. unfold loads. rewrite dumps_object.
  rewrite skip_ws_head by reflexivity.
  pose proof (comma_join_length members) as Hlen.
  assert (Hfuel : exists f,
            (2 * String.length (String "{" (comma_join dumps_member members ++ "}")) + 2
             = S (S (List.length members + f)))%nat).
  { exists (2 * String.length (String "{" (comma_join dumps_member members ++ "}"))
            - List.length members)%nat.
    cbn [String.length]. rewrite str_length_app. lia. }
  destruct Hfuel as [f ->].
  destruct members as [|kv more]; [congruence|].
  destruct (dumps_member_head kv
              (match more with [] => "" | _ :: _ => ", " ++ comma_join dumps_member more end
               ++ "}")) as [u Hu].
  assert (Hform : comma_join dumps_member (kv :: more) ++ "}" = String dquote u).
  { rewrite <- Hu. cbn [comma_join]. now rewrite append_assoc. }
  rewrite Hform, scan_once_object, <- Hform.
  rewrite (scan_members_dumps (kv :: more) Hne Hall f [] "").
  reflexivity.
Qed.

(** The cleaning step leaves such a text as it is. *)
Lemma rstrip_keep (p : ascii -> bool) (x : string) (c : ascii) :
  p c = false ->
  Py.rstrip_by p (x ++ String c "") = x ++ String c "".
Proof.
  intros Hc. induction x as [|a x IH]; simpl.
  - now rewrite Hc.
  - rewrite IH. destruct x; reflexivity.
Qed.

Lemma clean_object (members : list (string * json)) :
  clean (dumps (JObj members)) = dumps (JObj members).
Proof.
  rewrite dumps_object. unfold clean, Py.strip, Py.strip_by.
  change (Py.lstrip_by Py.is_space (String "{" ?x)) with (String "{" x).
  change (String "{" (comma_join dumps_member members ++ "}"))
    with (String "{" (comma_join dumps_member members) ++ "}").
  rewrite rstrip_keep by reflexivity. reflexivity.
Qed.

(** The texts of the verdict are plain. *)
Lemma plain_app (a b : string) : plain (a ++ b) = plain a && plain b.
Proof.
  induction a as [|c a IH]; simpl; [reflexivity|]. now rewrite IH, andb_assoc.
Qed.

Lemma plain_digit (d : Z) : 0 <= d < 10 -> plain_char (Py.digit_char d) = true.
Proof.
  intros H. assert (Hd : In d (Zrange 0 10)) by (apply In_Zrange; lia).
  vm_compute in Hd.
  repeat (destruct Hd as [<- | Hd]; [reflexivity|]). destruct Hd.
Qed.

Lemma plain_digits_aux (fuel : nat) (n : Z) (acc : string) :
  plain acc = true -> plain (Py.digits_aux fuel n acc) = true.
Proof.
  revert n acc. induction fuel as [|fuel IH]; intros n acc Hacc;
    cbn [Py.digits_aux]; [exact Hacc|].
  assert (Hstep : plain (String (Py.digit_char (n mod 10)) acc) = true).
  { cbn [plain]. rewrite plain_digit by (apply Z.mod_pos_bound; lia). exact Hacc. }
  destruct (n / 10 =? 0); [exact Hstep | now apply IH].
Qed.

Lemma plain_str_of_Z (z : Z) : plain (Py.str_of_Z z) = true.
Proof.
  unfold Py.str_of_Z. destruct (z <? 0).
  - change (plain (String "-" ?x)) with (plain x). now apply plain_digits_aux.
  - now apply plain_digits_aux.
Qed.

Lemma plain_reasoning (h r : Z) : plain (FallbackLLMClient.reasoning h r) = true.
Proof.
  unfold FallbackLLMClient.reasoning.
  now rewrite !plain_app, !plain_str_of_Z.
Qed.

Lemma scannable_opt_str (st : option string) :
  In st scam_types -> scannable (FallbackLLMClient.opt_str st).
Proof.
  intros H. unfold scam_types in H.
  repeat (destruct H as [<- | H];
          [first [apply scannable_null | apply scannable_str; reflexivity]|]).
  destruct H.
Qed.

Lemma scannable_risk_level (c : float) :
  scannable (JStr (FallbackLLMClient.risk_level c)).
Proof.
  apply scannable_str. unfold FallbackLLMClient.risk_level.
  destruct (PyFloat.gt c 0.7); [reflexivity|].
  destruct (PyFloat.gt c 0.4); reflexivity.
Qed.

Variable float_of_str : string -> result float.
Variable bool_of : json -> result bool.
Variable str_of : json -> result string.

Let rt : Runtime := runtime float_of_str bool_of str_of.

Lemma parse_structured_result_dict (h r : Z) (st : option string) :
  0 <= h <= 22 -> 0 <= r <= 47 -> In st scam_types ->
  parse_structured rt (dumps (JObj (FallbackLLMClient.result_dict h r st)))
  = Ok (rule_verdict_of h r st).
Proof.
  intros Hh Hr Hst. unfold parse_structured.
  rewrite clean_object. cbn [rt runtime rt_loads].
  rewrite loads_dumps_object.
  - unfold FallbackLLMClient.result_dict, rule_verdict_of. cbv zeta.
    generalize (FallbackLLMClient.is_scam h r)
               (FallbackLLMClient.risk_level (FallbackLLMClient.confidence h r))
               (FallbackLLMClient.reasoning h r)
               (FallbackLLMClient.confidence h r).
    intros b level reason conf. destruct st as [s|]; reflexivity.
  - discriminate.
  - unfold FallbackLLMClient.result_dict. cbv zeta.
    repeat apply Forall_cons; try apply Forall_nil; cbn [fst snd];
      (split; [reflexivity|]).
    + apply scannable_bool.
    + apply scannable_confidence, rule_confidence_In; assumption.
    + now apply scannable_opt_str.
    + apply scannable_str, plain_reasoning.
    + apply scannable_risk_level.
Qed.

Lemma parse_structured_detect_scam (prompt : string) :
  parse_structured rt (FallbackLLMClient._detect_scam prompt) = Ok (rule_verdict prompt).
Proof.
  unfold FallbackLLMClient._detect_scam, FallbackLLMClient.detect_result, rule_verdict.
  apply parse_structured_result_dict.
  - apply high_matches_range.
  - apply regular_matches_range.
  - apply scam_type_In.
Qed.

Lemma parse_response_detect_scam (prompt : string) :
  _parse_response rt (FallbackLLMClient._detect_scam prompt) = Ok (rule_verdict prompt).
Proof.
  unfold _parse_response. now rewrite parse_structured_detect_scam.
Qed.

End RoundTrip.

(** C10.  For a prompt that contains "analyze" and "scam" in any case,
    [generate] of the rule based classifier returns a text that the
    structured parse decodes, without an error and without the handler
    for undecodable text, into the verdict with the classifier's own
    [is_scam], [confidence], [scam_type], [reasoning] and [risk_level]. *)
Theorem rule_based_output_reads_back
  (float_of_str : string -> result float)
  (bool_of : Json.json -> result bool) (str_of : Json.json -> result string)
  (choice : nat) (prompt system_prompt : string) (temperature : float) :
  Py.contains "analyze" (Py.lower prompt) = true ->
  Py.contains "scam" (Py.lower prompt) = true ->
  let rt := ScamDetector.runtime float_of_str bool_of str_of in
  exists out,
    FallbackLLMClient.generate choice prompt system_prompt temperature = Ok out /\
    ScamDetector.parse_structured rt out = Ok (rule_verdict prompt) /\
    ScamDetector._parse_response rt out = Ok (rule_verdict prompt).
Proof.
  intros Ha Hs rt. exists (FallbackLLMClient._detect_scam prompt).
  unfold FallbackLLMClient.generate. rewrite Ha, Hs. cbn [andb].
  split; [reflexivity|]. split.
  - apply parse_structured_detect_scam.
  - apply parse_response_detect_scam.
Qed.

Lemma rule_based_output_reads_back_witness :
  Py.contains "analyze" (Py.lower "Analyze for scam. MESSAGE: You won the lottery") = true /\
  Py.contains "scam" (Py.lower "Analyze for scam. MESSAGE: You won the lottery") = true /\
  exists out,
    FallbackLLMClient.generate 0 "Analyze for scam. MESSAGE: You won the lottery"
      "" 0.3%float = Ok out /\
    ScamDetector.parse_structured
      (ScamDetector.runtime (fun _ => Ok 0%float) (fun _ => Ok false) (fun _ => Ok ""))
      out = Ok (rule_verdict "Analyze for scam. MESSAGE: You won the lottery") /\
    ScamDetector._parse_response
      (ScamDetector.runtime (fun _ => Ok 0%float) (fun _ => Ok false) (fun _ => Ok ""))
      out = Ok (rule_verdict "Analyze for scam. MESSAGE: You won the lottery").
Proof.
  split; [reflexivity|]. split; [reflexivity|].
  apply (rule_based_output_reads_back
           (fun _ => Ok 0%float) (fun _ => Ok false) (fun _ => Ok "")
           0%nat "Analyze for scam. MESSAGE: You won the lottery" "" 0.3%float);
    reflexivity.
Defined.

(** ** The parse step and [detect] *)



(** C1.  [detect] returns a verdict for every request, whatever the
    backend and the runtime do.  When a step of its body raises [e], and
    in particular when the call of the backend does, that verdict is the
    default: no scam, confidence 0, no type, risk "low", and the reasoning
    "Detection error: " followed by [str(e)]. *)
Theorem detect_never_raises
  (rt : ScamDetector.Runtime) (llm_client : ScamDetector.Backend)
  (request : HoneypotRequest) :
  exists v,
    ScamDetector.detect rt llm_client request = Ok v /\
    (forall e, ScamDetector.detect_body rt llm_client request = Raise e ->
       v = {| is_scam := false; confidence := 0; scam_type := None;
              reasoning := "Detection error: " ++ exn_msg e;
              risk_level := "low" |}
       /\ Py.startswith "Detection error: " (reasoning v) = true) /\
    (forall m e,
       metadata request = Some m ->
       llm_client (ScamDetector.detection_prompt request (channel m))
         Prompts.SCAM_DETECTION_SYSTEM_PROMPT 0.3%float = Raise e ->
       ScamDetector.detect_body rt llm_client request = Raise e).
Proof.
  unfold ScamDetector.detect.
  destruct (ScamDetector.detect_body rt llm_client request) as [a | e0] eqn:Hbody.
  - exists a. split; [reflexivity|]. split; [discriminate|].
    intros m e Hm Hcall. unfold ScamDetector.detect_body in Hbody.
    unfold ScamDetector.metadata_channel in Hbody. rewrite Hm in Hbody.
    cbn [bind] in Hbody. rewrite Hcall in Hbody. discriminate.
  - exists (ScamDetector.error_default e0). split; [reflexivity|]. split.
    + intros e [= <-]. split; reflexivity.
    + intros m e Hm Hcall. unfold ScamDetector.detect_body in Hbody.
      unfold ScamDetector.metadata_channel in Hbody. rewrite Hm in Hbody.
      cbn [bind] in Hbody. rewrite Hcall in Hbody. symmetry. exact Hbody.
Qed.

(** A backend that is out of reach: the verdict is the default one. *)
Example detect_backend_down :
  ScamDetector.detect
    (ScamDetector.runtime (fun _ => Ok 0%float) (fun _ => Ok false) (fun _ => Ok ""))
    (fun _ _ _ => Raise (Exn RuntimeError "OpenAI client not available"))
    {| sessionId := None;
       message := {| sender := "scammer"; text := "You won a prize";
                     msg_timestamp := TsInt 1700000000000 |};
       conversationHistory := [];
       metadata := Some {| channel := "SMS"; language := "English"; locale := "IN" |} |}
  = Ok {| is_scam := false; confidence := 0; scam_type := None;
          reasoning := "Detection error: OpenAI client not available";
          risk_level := "low" |}.
Proof. reflexivity. Qed.

(** ** Confidence and risk level *)

Section VerdictFacts.

Import ScamDetector.

Lemma own_confidences_unit :
  forallb in_unit_interval own_confidences = true.
Proof. vm_compute. reflexivity. Qed.

Lemma own_confidences_monotone :
  forallb (fun c1 => forallb (bucket_monotone c1) own_confidences) own_confidences = true.
Proof. vm_compute. reflexivity. Qed.

(** The verdict of each of the three paths has its confidence among
    [own_confidences] and the risk level of that confidence. *)
Lemma own_verdict_shape (v : ScamAnalysis) :
  own_verdict v ->
  In (confidence v) own_confidences /\
  risk_level v = FallbackLLMClient.risk_level (confidence v).
Proof.
  intros [fos bo so prompt v' Hparse | response | e].
  - rewrite parse_response_detect_scam in Hparse. injection Hparse as <-.
    unfold rule_verdict, rule_verdict_of. cbn [confidence risk_level].
    split; [|reflexivity].
    apply rule_confidence_In; [apply high_matches_range | apply regular_matches_range].
  - unfold parse_unstructured. cbn [confidence risk_level].
    destruct (Py.contains "true" (Py.lower response)
              && Py.contains "is_scam" (Py.lower response)).
    + split; [|reflexivity]. unfold own_confidences.
      do 2 (apply in_or_app; right). left. reflexivity.
    + split; [|reflexivity]. unfold own_confidences.
      do 2 (apply in_or_app; right). right. left. reflexivity.
  - unfold error_default. cbn [confidence risk_level]. split; [|reflexivity].
    unfold own_confidences. do 2 (apply in_or_app; right).
    right. right. left. reflexivity.
Qed.

End VerdictFacts.

(** C9, as stated, fails on the structured parse path: the confidence and
    the risk level are the ones the backend wrote.  A response with
    confidence 7 and risk "low" gives a verdict outside the unit
    interval, and next to a response with confidence 0.1 and risk
    "critical" the higher confidence has the lower risk level. *)
Lemma backend_values_are_not_checked :
  ScamDetector.detect
    (ScamDetector.runtime (fun _ => Ok 0%float) (fun _ => Ok false) (fun _ => Ok ""))
    (fun _ _ _ =>
       Ok (Json.dumps (Json.JObj [("is_scam", Json.JBool true);
                                  ("confidence", Json.JInt 7);
                                  ("risk_level", Json.JStr "low")])))
    {| sessionId := None;
       message := {| sender := "scammer"; text := "hello";
                     msg_timestamp := TsStr "2026-01-21T10:15:30Z" |};
       conversationHistory := [];
       metadata := Some {| channel := "SMS"; language := "English"; locale := "IN" |} |}
  = Ok {| is_scam := true; confidence := 7; scam_type := None;
          reasoning := "No reasoning provided"; risk_level := "low" |}
  /\ in_unit_interval 7 = false
  /\ ScamDetector.detect
    (ScamDetector.runtime (fun _ => Ok 0%float) (fun _ => Ok false) (fun _ => Ok ""))
    (fun _ _ _ =>
       Ok (Json.dumps (Json.JObj [("is_scam", Json.JBool false);
                                  ("confidence", Json.JFloat 0.1);
                                  ("risk_level", Json.JStr "critical")])))
    {| sessionId := None;
       message := {| sender := "scammer"; text := "hello";
                     msg_timestamp := TsStr "2026-01-21T10:15:30Z" |};
       conversationHistory := [];
       metadata := Some {| channel := "SMS"; language := "English"; locale := "IN" |} |}
  = Ok {| is_scam := false; confidence := 0.1; scam_type := None;
          reasoning := "No reasoning provided"; risk_level := "critical" |}
  /\ PyFloat.le 0.1 7 = true
  /\ (risk_rank "low" < risk_rank "critical")%nat.
Proof.
  split; [vm_compute; reflexivity|]. split; [reflexivity|].
  split; [vm_compute; reflexivity|]. split; [reflexivity|].
  vm_compute. lia.
Qed.

(** C9, amended.  A verdict that comes from the rule based classifier
    through the structured parse, from the scan of an undecodable
    response, or from the default of [detect] has its confidence in
    [0, 1] and the risk level of its confidence ("high" above 0.7,
    "medium" above 0.4, "low" otherwise); of two such verdicts the one
    with the higher confidence never has the lower risk level. *)
Theorem own_verdicts_are_bucketed (v1 v2 : ScamAnalysis) :
  own_verdict v1 -> own_verdict v2 ->
  in_unit_interval (confidence v1) = true /\
  risk_level v1 = FallbackLLMClient.risk_level (confidence v1) /\
  (PyFloat.le (confidence v1) (confidence v2) = true ->
   (risk_rank (risk_level v1) <= risk_rank (risk_level v2))%nat).
Proof.
  intros H1 H2.
  destruct (own_verdict_shape v1 H1) as [Hin1 Hr1].
  destruct (own_verdict_shape v2 H2) as [Hin2 Hr2].
  split; [|split].
  - pose proof own_confidences_unit as Hu. rewrite forallb_forall in Hu.
    now apply Hu.
  - exact Hr1.
  - intros Hle. rewrite Hr1, Hr2.
    pose proof own_confidences_monotone as Hm. rewrite forallb_forall in Hm.
    specialize (Hm _ Hin1). rewrite forallb_forall in Hm.
    specialize (Hm _ Hin2). unfold bucket_monotone in Hm.
    rewrite Hle in Hm. cbn [implb] in Hm. now apply Nat.leb_le.
Qed.

Lemma own_verdicts_are_bucketed_witness :
  in_unit_interval
    (confidence (ScamDetector.error_default (Exn RuntimeError "no backend"))) = true /\
  risk_level (ScamDetector.error_default (Exn RuntimeError "no backend")) = "low" /\
  (PyFloat.le
     (confidence (ScamDetector.error_default (Exn RuntimeError "no backend")))
     (confidence (ScamDetector.parse_unstructured "is_scam: true")) = true ->
   (risk_rank (risk_level (ScamDetector.error_default (Exn RuntimeError "no backend")))
    <= risk_rank (risk_level (ScamDetector.parse_unstructured "is_scam: true")))%nat).
Proof.
  exact (own_verdicts_are_bucketed
           (ScamDetector.error_default (Exn RuntimeError "no backend"))
           (ScamDetector.parse_unstructured "is_scam: true")
           (default_path (Exn RuntimeError "no backend"))
           (heuristic_path "is_scam: true")).
Defined.
